(** * Jobly backend: the SQL clause builders and the Job repository

    A shallow embedding of [helpers/sql.js] ([sqlForPartialUpdate],
    [sqlForFilter]) and of [models/jobModel.js] ([Job.create], [Job.findAll],
    [Job.get], [Job.update]), together with the JavaScript primitives these
    functions rely on (truthiness, unary plus, [String.prototype.trim],
    template literals, [Object.keys]).

    Conventions of the embedding:
    - a JavaScript string is a [string] of ASCII characters;
    - a JavaScript number is a binary64 value: [NaN], an infinity, or a
      finite value held as the decimal fraction it is equal to; text is
      converted to the nearest value, ties to even, and [-0] is not told
      apart from [0];
    - an object is an ordinary one, with [Object.prototype] as its
      prototype, held as an association list in [Object.keys] order (for
      the keys used here, none of which is an array index, that is
      insertion order); the one property read made with a key the caller
      chooses, [jsToSql[colName]], also finds what [Object.prototype]
      provides;
    - a function that can throw returns a [result]. *)

From Stdlib Require Import ZArith List String Ascii Bool Lia.
From Stdlib Require Import Decimal DecimalString DecimalNat.
Import ListNotations.
Open Scope string_scope.
Set Warnings "-register-all".

(** ** Errors and results *)

(** [BadRequestError] and [NotFoundError] are the classes of
    [expressError.js]; [TypeError] is the runtime's own; [StoreError] stands
    for whatever [db.query] rejects with (it carries the SQLSTATE code). *)
Inductive error : Type :=
| BadRequestError (message : string)
| NotFoundError (message : string)
| TypeError (message : string)
| StoreError (code message : string).

Inductive result (A : Type) : Type :=
| Ok (a : A)
| Err (e : error).
Arguments Ok {A} a.
Arguments Err {A} e.

Definition bind {A B : Type} (r : result A) (k : A -> result B) : result B :=
  match r with
  | Ok a => k a
  | Err e => Err e
  end.

Notation "x <- r ;; k" := (bind r (fun x => k))
  (at level 61, r at next level, right associativity).
Notation "' p <- r ;; k" := (bind r (fun p => k))
  (at level 61, p pattern, r at next level, right associativity).

(** ** JavaScript values *)

Module JS.

(** A number is a binary64 value.  [Fin m d] is read as the decimal
    literal [m / 10^d] is read in a program: it stands for the binary64
    value nearest to that fraction, ties to even ([round64] below).  The
    conversions return a finite number in exact form, in which [m / 10^d]
    is the value itself and [d = 0] or [m] is not divisible by ten. *)
Inductive jsnum : Type :=
| NaN
| Inf (negative : bool)
| Fin (m : Z) (d : nat).

Inductive jsval : Type :=
| JUndefined
| JNull
| JBool (b : bool)
| JNum (n : jsnum)
| JStr (s : string)
| JArr (elements : list jsval)
| JObj (properties : list (string * jsval)).

Definition obj : Type := list (string * jsval).

(** *** Strings *)

(** WhiteSpace and LineTerminator code points below 128: TAB, LF, VT, FF,
    CR and SP. *)
Definition isWhiteSpace (c : ascii) : bool :=
  let n := nat_of_ascii c in
  (((9 <=? n) && (n <=? 13)) || (n =? 32))%nat.

Fixpoint trimStart (s : string) : string :=
  match s with
  | EmptyString => EmptyString
  | String c s' => if isWhiteSpace c then trimStart s' else s
  end.

Fixpoint trimEnd (s : string) : string :=
  match s with
  | EmptyString => EmptyString
  | String c s' =>
      match trimEnd s' with
      | EmptyString => if isWhiteSpace c then EmptyString else String c EmptyString
      | t => String c t
      end
  end.

(** [String.prototype.trim]. *)
Definition trim (s : string) : string := trimEnd (trimStart s).

(** The double quote character, as a one-character string. *)
Definition dquote : string := String (ascii_of_nat 34) EmptyString.

(** [Array.prototype.join] on an array of strings. *)
Fixpoint join (sep : string) (l : list string) : string :=
  match l with
  | [] => ""
  | [x] => x
  | x :: rest => x ++ sep ++ join sep rest
  end.

Fixpoint repeatString (s : string) (n : nat) : string :=
  match n with
  | O => ""
  | S n' => s ++ repeatString s n'
  end.

(** Decimal numeral of a natural number, as [${n}] prints an array index
    or a length. *)
Definition string_of_nat (n : nat) : string :=
  NilEmpty.string_of_uint (Nat.to_uint n).

Definition string_of_N (n : N) : string :=
  NilEmpty.string_of_uint (N.to_uint n).

(** *** Numbers *)

Fixpoint normalize (m : Z) (d : nat) : jsnum :=
  match d with
  | O => Fin m 0
  | S d' => if (m mod 10 =? 0)%Z then normalize (m / 10) d' else Fin m d
  end.

(** The number [m * 10^e]. *)
Definition mkFin (m e : Z) : jsnum :=
  if (0 <=? e)%Z then Fin (m * 10 ^ e) 0 else normalize m (Z.to_nat (- e)).

Definition num_of_Z (z : Z) : jsnum := Fin z 0.

(** The integer nearest to [p / q], the even one of two that are equally
    near, for [0 <= p] and [0 < q]. *)
Definition roundHalfEven (p q : Z) : Z :=
  let n := (p / q)%Z in
  let r := (p mod q)%Z in
  if (2 * r <? q)%Z then n
  else if (q <? 2 * r)%Z then (n + 1)%Z
  else if Z.even n then n else (n + 1)%Z.

(** The integer part of the binary logarithm of [p / q], for [0 < p] and
    [0 < q]: the difference of the logarithms, or one less. *)
Definition log2Ratio (p q : Z) : Z :=
  let l := (Z.log2 p - Z.log2 q)%Z in
  if (if (0 <=? l)%Z then (p <? q * 2 ^ l)%Z else (p * 2 ^ (- l) <? q)%Z)
  then (l - 1)%Z else l.

(** The binary64 value nearest to [p / q], ties to even, for [0 <= p] and
    [0 < q], in exact form.  The significand [M] has at most 53 bits, the
    exponent [e] of its last bit is at least [-1074] (below the normal
    range the spacing stays [2^-1074]), and a value that reaches [2^1024]
    is infinite. *)
Definition nearest64 (p q : Z) : jsnum :=
  if (p =? 0)%Z then Fin 0 0
  else
    let e := Z.max (log2Ratio p q - 52) (-1074) in
    if (0 <=? e)%Z then
      let M := roundHalfEven p (q * 2 ^ e) in
      if (2 ^ 1024 <=? M * 2 ^ e)%Z then Inf false else Fin (M * 2 ^ e) 0
    else
      let M := roundHalfEven (p * 2 ^ (- e)) q in
      normalize (M * 5 ^ (- e)) (Z.to_nat (- e)).

Definition negate (n : jsnum) : jsnum :=
  match n with
  | NaN => NaN
  | Inf negative => Inf (negb negative)
  | Fin m d => Fin (- m) d
  end.

Definition signed (negative : bool) (n : jsnum) : jsnum :=
  if negative then negate n else n.

(** The binary64 value a number stands for, in exact form. *)
Definition round64 (n : jsnum) : jsnum :=
  match n with
  | Fin m d => signed (m <? 0)%Z (nearest64 (Z.abs m) (10 ^ Z.of_nat d))
  | _ => n
  end.

(** The number of the decimal literal [m * 10^e].  A literal of at least
    [10^309] is beyond [2^1024] and one below [2^-1075] is nearest to zero;
    [abs m < 2^(log2 (abs m) + 1)] and [10^e < 2^(3 * e)] for a negative [e]
    tell the second without the power of ten being computed. *)
Definition decimalToNumber (m e : Z) : jsnum :=
  if (m =? 0)%Z then Fin 0 0
  else if (309 <=? e)%Z then signed (m <? 0)%Z (Inf false)
  else if ((e <? 0) && (Z.log2 (Z.abs m) + 1 + 3 * e <=? -1075))%Z then Fin 0 0
  else if (0 <=? e)%Z then signed (m <? 0)%Z (nearest64 (Z.abs m * 10 ^ e) 1)
  else signed (m <? 0)%Z (nearest64 (Z.abs m) (10 ^ (- e))).

(** The order of two numbers in exact form. *)
Definition exact_le (a b : jsnum) : bool :=
  match a, b with
  | NaN, _ | _, NaN => false
  | Inf true, _ => true
  | _, Inf false => true
  | Inf false, _ => false
  | _, Inf true => false
  | Fin m1 d1, Fin m2 d2 =>
      (m1 * 10 ^ Z.of_nat d2 <=? m2 * 10 ^ Z.of_nat d1)%Z
  end.

(** The relational operator [<=] on numbers: false as soon as one operand
    is [NaN]. *)
Definition num_le (a b : jsnum) : bool := exact_le (round64 a) (round64 b).

Definition num_eqb (a b : jsnum) : bool :=
  match a, b with
  | NaN, NaN => true
  | Inf x, Inf y => Bool.eqb x y
  | Fin m1 d1, Fin m2 d2 => ((m1 =? m2)%Z && (d1 =? d2)%nat)%bool
  | _, _ => false
  end.

(** The number is [0]. *)
Definition num_isZero (a : jsnum) : bool :=
  match round64 a with
  | Fin m _ => (m =? 0)%Z
  | _ => false
  end.

Definition digitOf (c : ascii) : option Z :=
  let n := Z.of_nat (nat_of_ascii c) in
  if ((48 <=? n) && (n <=? 57))%Z then Some (n - 48)%Z else None.

Definition hexDigitOf (c : ascii) : option Z :=
  let n := Z.of_nat (nat_of_ascii c) in
  if ((48 <=? n) && (n <=? 57))%Z then Some (n - 48)%Z
  else if ((97 <=? n) && (n <=? 102))%Z then Some (n - 87)%Z
  else if ((65 <=? n) && (n <=? 70))%Z then Some (n - 55)%Z
  else None.

(** Value of a string made only of digits below [radix]; [None] when
    another character occurs. *)
Fixpoint readDigits (radix : Z) (acc : Z) (s : string) : option Z :=
  match s with
  | EmptyString => Some acc
  | String c s' =>
      match hexDigitOf c with
      | Some v =>
          if (v <? radix)%Z then readDigits radix (acc * radix + v) s' else None
      | None => None
      end
  end.

(** Longest prefix of decimal digits, and what follows it. *)
Fixpoint takeDigits (s : string) : string * string :=
  match s with
  | EmptyString => (EmptyString, EmptyString)
  | String c s' =>
      match digitOf c with
      | Some _ => let (ds, rest) := takeDigits s' in (String c ds, rest)
      | None => (EmptyString, s)
      end
  end.

Definition isEmpty (s : string) : bool :=
  match s with
  | EmptyString => true
  | _ => false
  end.

Definition decValue (ds : string) : Z :=
  match readDigits 10 0 ds with
  | Some z => z
  | None => 0%Z
  end.

(** Optional sign: the factor and the rest of the text. *)
Definition takeSign (s : string) : Z * string :=
  match s with
  | EmptyString => (1%Z, s)
  | String c s' =>
      if Ascii.eqb c "+" then (1%Z, s')
      else if Ascii.eqb c "-" then ((-1)%Z, s')
      else (1%Z, s)
  end.

(** ExponentPart, or nothing, up to the end of the text. *)
Definition readExponent (s : string) : option Z :=
  match s with
  | EmptyString => Some 0%Z
  | String c s' =>
      if (Ascii.eqb c "e" || Ascii.eqb c "E")%bool then
        let (sg, s'') := takeSign s' in
        let (ds, rest) := takeDigits s'' in
        if (isEmpty ds || negb (isEmpty rest))%bool then None
        else Some (sg * decValue ds)%Z
      else None
  end.

(** What follows a decimal point, when the text begins with one. *)
Definition afterPoint (s : string) : option string :=
  match s with
  | EmptyString => None
  | String c s' => if Ascii.eqb c "." then Some s' else None
  end.

(** StrUnsignedDecimalLiteral other than [Infinity]: mantissa and power
    of ten. *)
Definition readUnsignedDecimal (s : string) : option (Z * Z) :=
  let (ip, r1) := takeDigits s in
  match afterPoint r1 with
  | Some r2 =>
      let (fp, r3) := takeDigits r2 in
      if (isEmpty ip && isEmpty fp)%bool then None
      else
        match readExponent r3 with
        | Some e => Some (decValue (ip ++ fp), (e - Z.of_nat (String.length fp))%Z)
        | None => None
        end
  | None =>
      if isEmpty ip then None
      else
        match readExponent r1 with
        | Some e => Some (decValue ip, e)
        | None => None
        end
  end.

(** The radix and the digits of a text that begins with [0x], [0o] or
    [0b], in either case of the letter. *)
Definition radixPrefix (t : string) : option (Z * string) :=
  match t with
  | String c1 (String c2 ds) =>
      if Ascii.eqb c1 "0" then
        if (Ascii.eqb c2 "x" || Ascii.eqb c2 "X")%bool then Some (16%Z, ds)
        else if (Ascii.eqb c2 "o" || Ascii.eqb c2 "O")%bool then Some (8%Z, ds)
        else if (Ascii.eqb c2 "b" || Ascii.eqb c2 "B")%bool then Some (2%Z, ds)
        else None
      else None
  | _ => None
  end.

Definition readNonDecimal (radix : Z) (digits : string) : jsnum :=
  if isEmpty digits then NaN
  else
    match readDigits radix 0 digits with
    | Some z => round64 (Fin z 0)
    | None => NaN
    end.

(** StringToNumber: the text is trimmed; the empty text is [0]; then a
    binary, octal or hexadecimal integer without sign, or a signed decimal
    literal or [Infinity]; anything else is [NaN].  The value of a literal
    is rounded to binary64. *)
Definition StringToNumber (s : string) : jsnum :=
  let t := trim s in
  if isEmpty t then Fin 0 0
  else
    match radixPrefix t with
    | Some (radix, ds) => readNonDecimal radix ds
    | None =>
        let (sg, u) := takeSign t in
        if String.eqb u "Infinity" then Inf (sg <? 0)%Z
        else
          match readUnsignedDecimal u with
          | Some (m, e) => decimalToNumber (sg * m) e
          | None => NaN
          end
    end.

(** Trailing zero digits removed. *)
Fixpoint stripZeros (s : string) : string :=
  match s with
  | EmptyString => EmptyString
  | String c s' =>
      match stripZeros s' with
      | EmptyString => if Ascii.eqb c "0" then EmptyString else String c EmptyString
      | t => String c t
      end
  end.

(** The digits Number::toString writes for the positive binary64 value
    [m / 10^d], given in exact form: the decimal [s * 10^(n-k)] with the
    fewest digits [k] whose binary64 value is that number and, of those
    with [k] digits, the nearest to it (the even [s] of two equally near).
    [k] runs from its first argument on; seventeen digits always do. *)
Fixpoint shortest (fuel : nat) (k : Z) (m : Z) (d : nat) : jsnum :=
  match fuel with
  | O => Fin m d
  | S fuel' =>
      let n := (Z.of_nat (String.length (string_of_N (Z.to_N m))) - Z.of_nat d)%Z in
      let t := (Z.of_nat d + (n - k))%Z in
      if (t <=? 0)%Z then Fin m d
      else
        let s := (m / 10 ^ t)%Z in
        let lo := mkFin s (n - k) in
        let hi := mkFin (s + 1) (n - k) in
        let okLo := num_eqb (round64 lo) (Fin m d) in
        let okHi := num_eqb (round64 hi) (Fin m d) in
        let below := (m - s * 10 ^ t)%Z in
        let above := ((s + 1) * 10 ^ t - m)%Z in
        if (okLo && okHi)%bool then
          if (below <? above)%Z then lo
          else if (above <? below)%Z then hi
          else if Z.even s then lo else hi
        else if okLo then lo
        else if okHi then hi
        else shortest fuel' (k + 1)%Z m d
  end.

(** The text of a positive decimal [m / 10^d]: with [s] the [k]
    significant digits and [n] the position of the decimal point, plain
    digits when [k <= n <= 21], a decimal point inside when [0 < n <= 21],
    a leading [0.] when [-6 < n <= 0], and the exponent form otherwise. *)
Definition positiveToString (m : Z) (d : nat) : string :=
  let ds := string_of_N (Z.to_N m) in
  let s := stripZeros ds in
  let k := Z.of_nat (String.length s) in
  let n := (Z.of_nat (String.length ds) - Z.of_nat d)%Z in
  if ((k <=? n) && (n <=? 21))%Z then s ++ repeatString "0" (Z.to_nat (n - k))
  else if ((0 <? n) && (n <=? 21))%Z then
    substring 0 (Z.to_nat n) s ++ "." ++ substring (Z.to_nat n) (Z.to_nat (k - n)) s
  else if ((-6 <? n) && (n <=? 0))%Z then
    "0." ++ repeatString "0" (Z.to_nat (- n)) ++ s
  else
    let e := (n - 1)%Z in
    let es := (if (e <? 0)%Z then "-" else "+") ++ string_of_N (Z.to_N (Z.abs e)) in
    match s with
    | EmptyString => EmptyString
    | String c EmptyString => String c "e" ++ es
    | String c rest => String c "." ++ rest ++ "e" ++ es
    end.

Definition shortestToString (m : Z) (d : nat) : string :=
  match shortest 17 1 m d with
  | Fin s x => positiveToString s x
  | _ => EmptyString
  end.

(** Number::toString. *)
Definition NumberToString (x : jsnum) : string :=
  match round64 x with
  | NaN => "NaN"
  | Inf false => "Infinity"
  | Inf true => "-Infinity"
  | Fin m d =>
      if (m =? 0)%Z then "0"
      else if (m <? 0)%Z then "-" ++ shortestToString (- m) d
      else shortestToString m d
  end.

(** *** Conversions *)

(** ToBoolean: [undefined], [null], [false], [0], [NaN] and the empty
    string are falsy; everything else, the string ["false"] included, is
    truthy. *)
Definition ToBoolean (v : jsval) : bool :=
  match v with
  | JUndefined | JNull => false
  | JBool b => b
  | JNum n =>
      match round64 n with
      | NaN => false
      | _ => negb (num_isZero n)
      end
  | JStr s => negb (isEmpty s)
  | JArr _ | JObj _ => true
  end.

(** ToString, as a template literal applies it. *)
Fixpoint ToString (v : jsval) : string :=
  match v with
  | JUndefined => "undefined"
  | JNull => "null"
  | JBool true => "true"
  | JBool false => "false"
  | JNum n => NumberToString n
  | JStr s => s
  | JArr l =>
      join ","
        (map (fun e => match e with
                       | JUndefined | JNull => ""
                       | _ => ToString e
                       end) l)
  | JObj _ => "[object Object]"
  end.

(** ToNumber, the unary [+]. *)
Definition ToNumber (v : jsval) : jsnum :=
  match v with
  | JUndefined => NaN
  | JNull => Fin 0 0
  | JBool true => Fin 1 0
  | JBool false => Fin 0 0
  | JNum n => n
  | JStr s => StringToNumber s
  | JArr _ | JObj _ => StringToNumber (ToString v)
  end.

(** *** Objects *)

Fixpoint lookup {A : Type} (l : list (string * A)) (k : string) : option A :=
  match l with
  | [] => None
  | (k', a) :: rest => if String.eqb k' k then Some a else lookup rest k
  end.

Definition indexKeys (n : nat) : list string := map string_of_nat (seq 0 n).

Fixpoint characters (s : string) : list jsval :=
  match s with
  | EmptyString => []
  | String c s' => JStr (String c EmptyString) :: characters s'
  end.

(** Own enumerable string-keyed properties, in [Object.keys] order. *)
Definition ownProperties (v : jsval) : obj :=
  match v with
  | JObj o => o
  | JArr l => combine (indexKeys (List.length l)) l
  | JStr s => combine (indexKeys (String.length s)) (characters s)
  | _ => []
  end.

Definition isNullish (v : jsval) : bool :=
  match v with
  | JUndefined | JNull => true
  | _ => false
  end.

Definition Object_keys (v : jsval) : result (list string) :=
  if isNullish v then Err (TypeError "Cannot convert undefined or null to object")
  else Ok (map fst (ownProperties v)).

Definition Object_values (v : jsval) : result (list jsval) :=
  if isNullish v then Err (TypeError "Cannot convert undefined or null to object")
  else Ok (map snd (ownProperties v)).

(** [Object.hasOwnProperty.call(v, k)] for a [v] that is neither [null]
    nor [undefined], asked about an enumerable property. *)
Definition hasOwnProperty (v : jsval) (k : string) : bool :=
  match lookup (ownProperties v) k with
  | Some _ => true
  | None => false
  end.

(** The property read [v[k]] on a [v] that is neither [null] nor
    [undefined]. *)
Definition prop (v : jsval) (k : string) : jsval :=
  match lookup (ownProperties v) k with
  | Some x => x
  | None => JUndefined
  end.

(** The property read [v[k]], which throws on [null] and [undefined]. *)
Definition getProp (v : jsval) (k : string) : result jsval :=
  if isNullish v then
    Err (TypeError ("Cannot read properties of " ++ ToString v
                    ++ " (reading '" ++ k ++ "')"))
  else Ok (prop v k).

(** The parameter pattern [{ k, ... }] applied to the argument [v]: the
    property [k], or the error thrown on [null] and [undefined]. *)
Definition destructure (v : jsval) (k : string) : result jsval :=
  if isNullish v then
    Err (TypeError ("Cannot destructure property '" ++ k ++ "' of '"
                    ++ match v with
                       | JNull => "object null"
                       | _ => "undefined"
                       end
                    ++ "' as it is " ++ ToString v ++ "."))
  else Ok (prop v k).

(** The text string conversion gives for a built-in function. *)
Definition nativeFunction (name : string) : string :=
  "function " ++ name ++ "() { [native code] }".

(** What an object inherits from [Object.prototype], each member with the
    text string conversion gives for it: the constructor, ten methods, and
    the accessor [__proto__], which reads as the prototype itself.  Every
    one of them is truthy. *)
Definition objectPrototype : list (string * string) :=
  [ ("constructor", nativeFunction "Object");
    ("__defineGetter__", nativeFunction "__defineGetter__");
    ("__defineSetter__", nativeFunction "__defineSetter__");
    ("hasOwnProperty", nativeFunction "hasOwnProperty");
    ("__lookupGetter__", nativeFunction "__lookupGetter__");
    ("__lookupSetter__", nativeFunction "__lookupSetter__");
    ("isPrototypeOf", nativeFunction "isPrototypeOf");
    ("propertyIsEnumerable", nativeFunction "propertyIsEnumerable");
    ("toString", nativeFunction "toString");
    ("valueOf", nativeFunction "valueOf");
    ("__proto__", "[object Object]");
    ("toLocaleString", nativeFunction "toLocaleString") ].

(** What a property read finds: an own property of the value, a member
    of [Object.prototype], or nothing, which reads as [undefined]. *)
Inductive found : Type :=
| Own (x : jsval)
| Inherited (text : string)
| Missing.

(** The [length] of an array or of a string, an own property that
    [Object.keys] does not list. *)
Definition ownLength (v : jsval) (k : string) : option jsval :=
  if String.eqb k "length" then
    match v with
    | JArr l => Some (JNum (num_of_Z (Z.of_nat (List.length l))))
    | JStr s => Some (JNum (num_of_Z (Z.of_nat (String.length s))))
    | _ => None
    end
  else None.

(** The property read [v[k]] with a key that may name an inherited member:
    it throws on [null] and [undefined], finds an own property first, and
    on an object then looks in [Object.prototype].  A string, an array, a
    number or a boolean has a prototype of its own before that one, which is
    not listed here: for such a value only own properties are found. *)
Definition getMember (v : jsval) (k : string) : result found :=
  if isNullish v then
    Err (TypeError ("Cannot read properties of " ++ ToString v
                    ++ " (reading '" ++ k ++ "')"))
  else
    match lookup (ownProperties v) k with
    | Some x => Ok (Own x)
    | None =>
        match ownLength v k with
        | Some x => Ok (Own x)
        | None =>
            match v with
            | JObj _ =>
                match lookup objectPrototype k with
                | Some text => Ok (Inherited text)
                | None => Ok Missing
                end
            | _ => Ok Missing
            end
        end
    end.

(** The assignment [o.k = x]: in place when [k] is there, else appended. *)
Fixpoint setProperty (o : obj) (k : string) (x : jsval) : obj :=
  match o with
  | [] => [(k, x)]
  | (k', y) :: rest =>
      if String.eqb k' k then (k', x) :: rest else (k', y) :: setProperty rest k x
  end.

(** [delete o.k]. *)
Fixpoint deleteProperty (o : obj) (k : string) : obj :=
  match o with
  | [] => []
  | (k', y) :: rest =>
      if String.eqb k' k then rest else (k', y) :: deleteProperty rest k
  end.

End JS.

(** ** helpers/sql.js *)

Module Sql.
Import JS.

(** [keys.map((colName, idx) => ...)] with a callback that may throw. *)
Fixpoint mapWithIndex {A B : Type} (f : A -> nat -> result B) (idx : nat)
    (l : list A) : result (list B) :=
  match l with
  | [] => Ok []
  | x :: rest =>
      y <- f x idx ;;
      ys <- mapWithIndex f (S idx) rest ;;
      Ok (y :: ys)
  end.

(** [${mapped || colName}], the text the template literal writes for
    what [jsToSql[colName]] found. *)
Definition orColName (mapped : found) (colName : string) : string :=
  match mapped with
  | Own x => ToString (if ToBoolean x then x else JStr colName)
  | Inherited text => text
  | Missing => colName
  end.

(** [sqlForPartialUpdate(dataToUpdate, jsToSql)]: the pair
    [(setCols, values)], or the thrown error. *)
Definition sqlForPartialUpdate (dataToUpdate jsToSql : jsval)
    : result (string * list jsval) :=
  keys <- Object_keys dataToUpdate ;;
  if (List.length keys =? 0)%nat then Err (BadRequestError "No data")
  else
    cols <- mapWithIndex
              (fun colName idx =>
                 mapped <- getMember jsToSql colName ;;
                 Ok (dquote ++ orColName mapped colName
                     ++ dquote ++ "=$" ++ string_of_nat (idx + 1)))
              0 keys ;;
    values <- Object_values dataToUpdate ;;
    Ok (join ", " cols, values).

(** One entry of the [fields] table; [type] and [comparison] are absent
    for [hasEquity]. *)
Record fieldSpec : Type := {
  dbName : string;
  type : option string;
  comparison : option string
}.

Definition fields : list (string * list (string * fieldSpec)) :=
  [ ("companies",
      [ ("nameLike", {| dbName := "name"; type := Some "string"; comparison := None |});
        ("minEmployees",
          {| dbName := "num_employees"; type := Some "integer"; comparison := Some ">=" |});
        ("maxEmployees",
          {| dbName := "num_employees"; type := Some "integer"; comparison := Some "<=" |}) ]);
    ("jobs",
      [ ("title", {| dbName := "title"; type := Some "string"; comparison := None |});
        ("minSalary",
          {| dbName := "salary"; type := Some "integer"; comparison := Some ">=" |});
        ("hasEquity", {| dbName := "equity"; type := None; comparison := None |}) ]) ].

Definition notPossible (table colName : string) : error :=
  BadRequestError ("Filtering '" ++ table ++ "' by '" ++ colName ++ "' is not possible.").

Definition isType (f : fieldSpec) (t : string) : bool :=
  match type f with
  | Some t' => String.eqb t' t
  | None => false
  end.

Definition optionToString (o : option string) : string :=
  match o with
  | Some s => s
  | None => "undefined"
  end.

(** The callback of [keys.map] in [sqlForFilter], for one [colName]: the
    clause it returns and [valuesOut] after it. *)
Definition filterColumn (dataForFilter : jsval) (table colName : string)
    (valuesOut : list jsval) : result (string * list jsval) :=
  match lookup fields table with
  | None => Err (TypeError "Cannot convert undefined or null to object")
  | Some tableFields =>
      match lookup tableFields colName with
      | None => Err (notPossible table colName)
      | Some f =>
          if String.eqb colName "hasEquity" then
            if ToBoolean (prop dataForFilter colName)
            then Ok (dbName f ++ " > 0", valuesOut)
            else Ok (dbName f ++ " >= 0", valuesOut)
          else if isType f "string" then
            let tempClause :=
              dbName f ++ " ILIKE $" ++ string_of_nat (List.length valuesOut + 1) in
            match prop dataForFilter colName with
            | JStr s => Ok (tempClause, (valuesOut ++ [JStr ("%" ++ trim s ++ "%")])%list)
            | JUndefined =>
                Err (TypeError "Cannot read properties of undefined (reading 'trim')")
            | JNull =>
                Err (TypeError "Cannot read properties of null (reading 'trim')")
            | _ => Err (TypeError "dataForFilter[colName].trim is not a function")
            end
          else if isType f "integer" then
            let tempClause :=
              dbName f ++ " " ++ optionToString (comparison f) ++ " $"
              ++ string_of_nat (List.length valuesOut + 1) in
            Ok (tempClause,
                (valuesOut ++ [JNum (ToNumber (prop dataForFilter colName))])%list)
          else Err (notPossible table colName)
      end
  end.

(** [keys.map] over the callback, threading [valuesOut]. *)
Fixpoint filterColumns (dataForFilter : jsval) (table : string)
    (keys : list string) (valuesOut : list jsval)
    : result (list string * list jsval) :=
  match keys with
  | [] => Ok ([], valuesOut)
  | colName :: rest =>
      '(clause, valuesOut1) <- filterColumn dataForFilter table colName valuesOut ;;
      '(cols, valuesOut2) <- filterColumns dataForFilter table rest valuesOut1 ;;
      Ok (clause :: cols, valuesOut2)
  end.

Definition minMaxMessage (dataForFilter : jsval) : string :=
  "Filter is incorrect: 'minEmployees', "
  ++ ToString (prop dataForFilter "minEmployees")
  ++ ", is NOT less than 'maxEmployees', "
  ++ ToString (prop dataForFilter "maxEmployees") ++ ".".

(** [sqlForFilter(dataForFilter, table)]: the pair [(whereClause, values)],
    or the thrown error. *)
Definition sqlForFilter (dataForFilter : jsval) (table : string)
    : result (string * list jsval) :=
  if ToBoolean dataForFilter then
    keys <- Object_keys dataForFilter ;;
    if (0 <? List.length keys)%nat then
      if (hasOwnProperty dataForFilter "minEmployees"
          && hasOwnProperty dataForFilter "maxEmployees"
          && num_le (ToNumber (prop dataForFilter "maxEmployees"))
                    (ToNumber (prop dataForFilter "minEmployees")))%bool
      then Err (BadRequestError (minMaxMessage dataForFilter))
      else
        '(cols, valuesOut) <- filterColumns dataForFilter table keys [] ;;
        Ok ("WHERE " ++ join " AND " cols, valuesOut)
    else Ok ("", [])
  else Ok ("", []).

End Sql.

(** ** models/jobModel.js *)

Module Job.
Import JS Sql.

(** The statements the Job model sends to [db.query], with the parts of
    their text that are computed and their bound values. *)
Inductive statement : Type :=
| InsertJob (values : list jsval)
| SelectCompanyJobs (joinType whereClause : string) (values : list jsval)
| SelectJob (values : list jsval)
| UpdateJob (setCols idVarIdx : string) (values : list jsval)
| DeleteJob (values : list jsval).

(** [a[0]], of an array held as a list. *)
Definition first (l : list jsval) : jsval := nth 0 l JUndefined.

(** [job.equity ? +job.equity : job.equity], the numeric form of a column
    when it is not null. *)
Definition numericForm (v : jsval) : jsval :=
  if ToBoolean v then JNum (ToNumber v) else v.

(** [delete v.k]. *)
Definition deleteProp (v : jsval) (k : string) : result jsval :=
  match v with
  | JUndefined | JNull =>
      Err (TypeError "Cannot convert undefined or null to object")
  | JObj o => Ok (JObj (deleteProperty o k))
  | _ => Ok v
  end.

(** [a.forEach(f)] where [f] updates the element it is given. *)
Fixpoint forEach (f : jsval -> result jsval) (l : list jsval)
    : result (list jsval) :=
  match l with
  | [] => Ok []
  | x :: rest =>
      y <- f x ;;
      ys <- forEach f rest ;;
      Ok (y :: ys)
  end.

(** [company.jobs.forEach(job => { delete job.company_handle; })]. *)
Definition dropCompanyHandles (company : obj) : result obj :=
  match prop (JObj company) "jobs" with
  | JArr jobs =>
      jobs' <- forEach (fun job => deleteProp job "company_handle") jobs ;;
      Ok (setProperty company "jobs" (JArr jobs'))
  | JUndefined =>
      Err (TypeError "Cannot read properties of undefined (reading 'forEach')")
  | JNull =>
      Err (TypeError "Cannot read properties of null (reading 'forEach')")
  | _ => Err (TypeError "company.jobs.forEach is not a function")
  end.

(** The body of [companyJobs.rows.forEach(company => ...)]. *)
Definition trimCompany (handle : jsval) (company : jsval) : result jsval :=
  match company with
  | JObj c =>
      let c1 :=
        if negb (ToBoolean handle)
        then deleteProperty (deleteProperty c "description") "logoUrl"
        else c in
      c2 <- dropCompanyHandles c1 ;;
      Ok (JObj c2)
  | JUndefined | JNull =>
      if negb (ToBoolean handle)
      then Err (TypeError "Cannot convert undefined or null to object")
      else Err (TypeError ("Cannot read properties of " ++ ToString company
                           ++ " (reading 'jobs')"))
  | _ => Err (TypeError "Cannot read properties of undefined (reading 'forEach')")
  end.

Section Repository.

(** [db.query]: the rows of the answer, or the error the store rejects
    with. *)
Variable db_query : statement -> result (list jsval).

(** [Company.get] of [models/company.js], which is not among the sources:
    the company of that handle, or [NotFoundError] when there is none. *)
Variable Company_get : jsval -> result jsval.

(** [Job.create({ companyHandle, title, salary, equity })]. *)
Definition create (data : jsval) : result jsval :=
  companyHandle <- destructure data "companyHandle" ;;
  rows <- db_query (InsertJob [companyHandle; prop data "title";
                               prop data "salary"; prop data "equity"]) ;;
  let job := first rows in
  id <- getProp job "id" ;;
  Ok (JObj [ ("id", id);
             ("companyHandle", prop job "company_handle");
             ("title", prop job "title");
             ("salary", numericForm (prop job "salary"));
             ("equity", numericForm (prop job "equity")) ]).

(** [Job.findAll(handle, joinType, filterValues)], for a [filterValues]
    that is an object, as [req.query] is. *)
Definition findAll (handle : jsval) (joinType : string) (filterValues : obj)
    : result (list jsval) :=
  let keys := map fst filterValues in
  let filtersInAffect := (0 <? List.length keys)%nat in
  let filterValues :=
    if ToBoolean handle then setProperty filterValues "handle" handle
    else filterValues in
  '(whereClause, values) <- sqlForFilter (JObj filterValues) "jobs" ;;
  rows <- db_query (SelectCompanyJobs joinType whereClause values) ;;
  if (List.length rows =? 0)%nat then
    if filtersInAffect then
      if ToBoolean handle then
        company <- Company_get handle ;;
        match company with
        | JObj c => Ok [JObj (setProperty c "jobs" (JArr []))]
        | JUndefined | JNull =>
            Err (TypeError ("Cannot set properties of " ++ ToString company
                            ++ " (setting 'jobs')"))
        | JArr _ => Ok [company]
        | _ =>
            Err (TypeError ("Cannot create property 'jobs' on "
                            ++ match company with
                               | JBool _ => "boolean"
                               | JNum _ => "number"
                               | _ => "string"
                               end
                            ++ " '" ++ ToString company ++ "'"))
        end
      else Err (NotFoundError "No jobs were found due to filter settings")
    else Err (NotFoundError ("No company: " ++ ToString handle))
  else if isNullish (first rows) then
    Err (TypeError ("Cannot read properties of " ++ ToString (first rows)
                    ++ " (reading 'jobs')"))
  else
    match prop (first rows) "jobs" with
    | JArr jobs =>
        if ToBoolean (first jobs) then forEach (trimCompany handle) rows
        else
          match rows with
          | JObj c :: rest =>
              Ok (JObj (setProperty c "jobs" (JArr (removelast jobs))) :: rest)
          | _ => Ok rows
          end
    | (JUndefined | JNull) as jobs =>
        Err (TypeError ("Cannot read properties of " ++ ToString jobs ++ " (reading '0')"))
    | jobs =>
        if ToBoolean (prop jobs "0")
        then Err (TypeError "company.jobs.forEach is not a function")
        else Err (TypeError "companyJobs.rows[0].jobs.pop is not a function")
    end.

(** [Job.get(id)]. *)
Definition get (id : jsval) : result jsval :=
  rows <- db_query (SelectJob [id]) ;;
  if (List.length rows =? 0)%nat then Err (NotFoundError ("No job: " ++ ToString id))
  else
    let jobDetail := first rows in
    Ok (JObj [ ("handle", prop jobDetail "handle");
               ("name", prop jobDetail "name");
               ("numEmployees", prop jobDetail "numEmployees");
               ("job", JObj [ ("id", prop jobDetail "id");
                              ("title", prop jobDetail "title");
                              ("salary", prop jobDetail "salary");
                              ("equity", numericForm (prop jobDetail "equity")) ]) ]).

(** [Job.update(id, data)].  The test [result.rows === 0] compares an array
    with a number and never holds, so nothing is thrown there. *)
Definition update (id : jsval) (data : jsval) : result jsval :=
  '(setCols, values) <-
     sqlForPartialUpdate data (JObj [("companyHandle", JStr "company_handle")]) ;;
  let idVarIdx := "$" ++ string_of_nat (List.length values + 1) in
  rows <- db_query (UpdateJob setCols idVarIdx (values ++ [id])%list) ;;
  let job := first rows in
  companyHandle <- getProp job "company_handle" ;;
  Ok (JObj [ ("companyHandle", companyHandle);
             ("id", prop job "id");
             ("title", prop job "title");
             ("salary", prop job "salary");
             ("equity", numericForm (prop job "equity")) ]).

(** [Job.remove(id)]. *)
Definition remove (id : jsval) : result jsval :=
  rows <- db_query (DeleteJob [id]) ;;
  if negb (ToBoolean (first rows)) then Err (NotFoundError ("No job: " ++ ToString id))
  else Ok JUndefined.

End Repository.

End Job.

(** ** Vocabulary of the specification *)

Module Spec.
Import JS Sql.

(** An object whose values are all strings, as a parsed query string is. *)
Definition ofStrings (l : list (string * string)) : jsval :=
  JObj (map (fun kv => (fst kv, JStr (snd kv))) l).




(** One assignment of a SET clause, to the [n]-th positional parameter. *)
Definition assignment (column : string) (n : nat) : string :=
  dquote ++ column ++ dquote ++ "=$" ++ string_of_nat n.


(** The two entities a filter can be built for. *)
Definition entity (table : string) : bool :=
  (String.eqb table "companies" || String.eqb table "jobs")%bool.

Inductive valueKind : Type :=
| Text      (* trimmed and wrapped in [%...%] *)
| Integer   (* coerced to a number *)
| Flag.     (* not bound to a parameter *)

(** The table of recognized filter fields: for an entity and a field, the
    column, the comparison and the kind of value. *)
Definition fieldOf (table colName : string) : option (string * string * valueKind) :=
  if String.eqb table "companies" then
    if String.eqb colName "nameLike" then Some ("name", "ILIKE", Text)
    else if String.eqb colName "minEmployees" then Some ("num_employees", ">=", Integer)
    else if String.eqb colName "maxEmployees" then Some ("num_employees", "<=", Integer)
    else None
  else if String.eqb table "jobs" then
    if String.eqb colName "title" then Some ("title", "ILIKE", Text)
    else if String.eqb colName "minSalary" then Some ("salary", ">=", Integer)
    else if String.eqb colName "hasEquity" then Some ("equity", ">", Flag)
    else None
  else None.

(** The filter fields an entity recognizes. *)
Definition recognized (table colName : string) : bool :=
  match fieldOf table colName with
  | Some _ => true
  | None => false
  end.

(** What the builder does with one field, read off the table: the clause
    fragment and the values bound so far. *)
Definition fragment (dataForFilter : jsval) (table colName : string)
    (valuesOut : list jsval) : result (string * list jsval) :=
  if entity table then
    match fieldOf table colName with
    | None => Err (notPossible table colName)
    | Some (column, _, Flag) =>
        Ok (column ++ (if ToBoolean (prop dataForFilter colName) then " > 0" else " >= 0"),
            valuesOut)
    | Some (column, op, Text) =>
        match prop dataForFilter colName with
        | JStr s =>
            Ok (column ++ " " ++ op ++ " $" ++ string_of_nat (List.length valuesOut + 1),
                (valuesOut ++ [JStr ("%" ++ trim s ++ "%")])%list)
        | JUndefined =>
            Err (TypeError "Cannot read properties of undefined (reading 'trim')")
        | JNull =>
            Err (TypeError "Cannot read properties of null (reading 'trim')")
        | _ => Err (TypeError "dataForFilter[colName].trim is not a function")
        end
    | Some (column, op, Integer) =>
        Ok (column ++ " " ++ op ++ " $" ++ string_of_nat (List.length valuesOut + 1),
            (valuesOut ++ [JNum (ToNumber (prop dataForFilter colName))])%list)
    end
  else Err (TypeError "Cannot convert undefined or null to object").

(** What calling [trim] on the value of a text field throws when the
    value is not a string. *)
Definition trimError (v : jsval) : option error :=
  match v with
  | JStr _ => None
  | JUndefined => Some (TypeError "Cannot read properties of undefined (reading 'trim')")
  | JNull => Some (TypeError "Cannot read properties of null (reading 'trim')")
  | _ => Some (TypeError "dataForFilter[colName].trim is not a function")
  end.

(** The error of the first text field that holds no string, among the
    fields that come before the first one the entity does not recognize. *)
Fixpoint trimErrorBefore (dataForFilter : jsval) (table : string) (keys : list string)
    : option error :=
  match keys with
  | [] => None
  | k :: rest =>
      match fieldOf table k with
      | None => None
      | Some (_, _, Text) =>
          match trimError (prop dataForFilter k) with
          | Some e => Some e
          | None => trimErrorBefore dataForFilter table rest
          end
      | Some _ => trimErrorBefore dataForFilter table rest
      end
  end.

(** The cross-field test on [minEmployees] and [maxEmployees]. *)
Definition crossFieldRejected (dataForFilter : jsval) : bool :=
  (hasOwnProperty dataForFilter "minEmployees"
   && hasOwnProperty dataForFilter "maxEmployees"
   && num_le (ToNumber (prop dataForFilter "maxEmployees"))
             (ToNumber (prop dataForFilter "minEmployees")))%bool.


Definition numeral (ds : string) : nat :=
  match NilEmpty.uint_of_string ds with
  | Some u => Nat.of_uint u
  | None => 0
  end.

(** The positional placeholders [$n] of a clause, from left to right. *)
Fixpoint placeholders (clause : string) : list nat :=
  match clause with
  | EmptyString => []
  | String c rest =>
      if Ascii.eqb c "$" then
        let (ds, _) := takeDigits rest in
        if isEmpty ds then placeholders rest else numeral ds :: placeholders rest
      else placeholders rest
  end.

(** The text is made of decimal digits only. *)
Fixpoint allDigits (s : string) : bool :=
  match s with
  | EmptyString => true
  | String c rest =>
      match digitOf c with
      | Some _ => allDigits rest
      | None => false
      end
  end.

(** Digits, then possibly a point and more digits. *)
Definition isUnsignedDecimal (u : string) : bool :=
  let (ip, r) := takeDigits u in
  (negb (isEmpty ip)
   && match afterPoint r with
      | Some fp => negb (isEmpty fp) && allDigits fp
      | None => isEmpty r
      end)%bool.

(** The text of an exact decimal, as the store returns a NUMERIC column:
    an optional minus sign, digits, and possibly a point and digits. *)
Definition isDecimalText (s : string) : bool :=
  match s with
  | EmptyString => false
  | String c u =>
      if Ascii.eqb c "-" then isUnsignedDecimal u else isUnsignedDecimal s
  end.

(** How a stored equity shows in the object a repository returns: null
    stays null, the text of a decimal becomes a number, the binary64 value
    the text converts to, which is not [NaN]. *)
Definition shownAs (stored shown : jsval) : Prop :=
  match stored with
  | JNull => shown = JNull
  | JStr s => shown = JNum (StringToNumber s) /\ StringToNumber s <> NaN
  | _ => True
  end.

(** A row of the jobs table as the store returns it, the NUMERIC column
    [equity] as text. *)
Definition storedJob : jsval :=
  JObj [ ("id", JNum (num_of_Z 1)); ("company_handle", JStr "e1");
         ("title", JStr "new"); ("salary", JNum (num_of_Z 75000));
         ("equity", JStr "0.02") ].

(** A store that holds this one job and answers every statement with it. *)
Definition oneJobStore (st : Job.statement) : result (list jsval) := Ok [storedJob].

(** A digit or the decimal point. *)
Definition decimalChar (c : ascii) : bool :=
  match digitOf c with
  | Some _ => true
  | None => Ascii.eqb c "."
  end.

Fixpoint decimalChars (s : string) : bool :=
  match s with
  | EmptyString => true
  | String c rest => (decimalChar c && decimalChars rest)%bool
  end.

(** The text holds a dollar sign. *)
Fixpoint hasDollar (s : string) : bool :=
  match s with
  | EmptyString => false
  | String c rest => (Ascii.eqb c "$" || hasDollar rest)%bool
  end.

(** The text begins with a decimal digit. *)
Definition startsWithDigit (s : string) : bool :=
  match s with
  | EmptyString => false
  | String c _ =>
      match digitOf c with
      | Some _ => true
      | None => false
      end
  end.

(** The fields of a filter that are bound to a positional parameter. *)
Definition parameterized (keys : list string) : list string :=
  filter (fun k => negb (String.eqb k "hasEquity")) keys.

End Spec.

(** ** Further vocabulary: what a filter binds *)

Module Notions.
Import JS Sql Spec.

(** The values the builder binds for one field of a filter made of
    strings: the trimmed text between percent signs, the number the text
    denotes, or nothing for a flag. *)
Definition boundValue (table : string) (kv : string * string) : list jsval :=
  match fieldOf table (fst kv) with
  | Some (_, _, Text) => [JStr ("%" ++ trim (snd kv) ++ "%")]
  | Some (_, _, Integer) => [JNum (StringToNumber (snd kv))]
  | _ => []
  end.

(** The same, from the value the filter holds under the key. *)
Definition boundOf (table colName : string) (v : jsval) : list jsval :=
  match fieldOf table colName, v with
  | Some (_, _, Text), JStr s => [JStr ("%" ++ trim s ++ "%")]
  | Some (_, _, Integer), _ => [JNum (ToNumber v)]
  | _, _ => []
  end.

(** A filter in which the text fields are trimmed beforehand. *)
Definition trimTexts (table : string) (filter : list (string * string))
    : list (string * string) :=
  map (fun kv => match fieldOf table (fst kv) with
                 | Some (_, _, Text) => (fst kv, trim (snd kv))
                 | _ => kv
                 end) filter.

(** The column the update builder writes for a field, with a mapping of
    names: the name the mapping gives when it is not empty and the field
    when it is; without a name in the mapping, the text of the member the
    mapping inherits under that key, or else the field. *)
Definition columnOf (jsToSql : list (string * string)) (field : string) : string :=
  match lookup jsToSql field with
  | Some column => if isEmpty column then field else column
  | None =>
      match lookup objectPrototype field with
      | Some text => text
      | None => field
      end
  end.

(** The values of an object in which the one under [k] is replaced. *)
Definition valuesWith (o : obj) (k : string) (x : jsval) : list jsval :=
  map (fun kv => if String.eqb (fst kv) k then x else snd kv) o.

(** The text is empty or begins with a character that is not white
    space. *)
Definition headNotWhite (s : string) : bool :=
  match s with
  | EmptyString => true
  | String c _ => negb (isWhiteSpace c)
  end.

Fixpoint allWhite (s : string) : bool :=
  match s with
  | EmptyString => true
  | String c rest => (isWhiteSpace c && allWhite rest)%bool
  end.

End Notions.

(** ** The statements of models/jobModel.js as text *)

Module JobSql.
Import JS Job Spec.

(** The INSERT of [Job.create]. *)
Definition insertText : string :=
  "INSERT INTO jobs
           (company_handle, title, salary, equity)
           VALUES ($1, $2, $3, $4)
           RETURNING id, company_handle, title, salary, equity".

(** The SELECT of [Job.findAll]. *)
Definition selectCompanyJobsText (joinType whereClause : string) : string :=
  "SELECT c.handle
            , c.name
            , c.num_employees AS "
  ++ dquote
  ++ "numEmployees"
  ++ dquote
  ++ "
            , c.description
            , c.logo_url AS "
  ++ dquote
  ++ "logoUrl"
  ++ dquote
  ++ "
            , json_agg(j.*) AS jobs
        FROM companies AS c    
        "
  ++ joinType
  ++ "JOIN jobs AS j ON c.handle = j.company_handle
        "
  ++ whereClause
  ++ " 
        GROUP BY c.handle, c.name, c.num_employees, c.description, c.logo_url
        ORDER BY c.handle 
      ".

(** The SELECT of [Job.get]. *)
Definition selectJobText : string :=
  "SELECT company_handle AS "
  ++ dquote
  ++ "handle"
  ++ dquote
  ++ "
          , name
          , num_employees AS "
  ++ dquote
  ++ "numEmployees"
  ++ dquote
  ++ "
          , id
          , title
          , salary
          , equity
        FROM jobs AS j 
        JOIN companies as c ON j.company_handle = c.handle
        WHERE id = $1 
      ".

(** The UPDATE of [Job.update]. *)
Definition updateText (setCols idVarIdx : string) : string :=
  "UPDATE jobs 
        SET "
  ++ setCols
  ++ " 
        WHERE id = "
  ++ idVarIdx
  ++ " 
        RETURNING company_handle, id, title, salary, equity
       ".

(** The DELETE of [Job.remove]. *)
Definition deleteText : string :=
  "DELETE
           FROM jobs
           WHERE id = $1
           RETURNING id".

(** The text [db.query] receives for a statement. *)
Definition sqlText (st : statement) : string :=
  match st with
  | InsertJob _ => insertText
  | SelectCompanyJobs joinType whereClause _ => selectCompanyJobsText joinType whereClause
  | SelectJob _ => selectJobText
  | UpdateJob setCols idVarIdx _ => updateText setCols idVarIdx
  | DeleteJob _ => deleteText
  end.

(** The values [db.query] receives with it. *)
Definition boundValues (st : statement) : list jsval :=
  match st with
  | InsertJob values => values
  | SelectCompanyJobs _ _ values => values
  | SelectJob values => values
  | UpdateJob _ _ values => values
  | DeleteJob values => values
  end.

(** The placeholders of the text are [$1] to [$N], for the [N] values
    bound. *)
Definition wellBound (st : statement) : bool :=
  if list_eq_dec Nat.eq_dec (placeholders (sqlText st))
                 (seq 1 (List.length (boundValues st)))
  then true else false.

(** A store that refuses a statement whose placeholders and values do not
    agree, as a protocol violation, and passes the others on. *)
Definition checked (db_query : statement -> result (list jsval)) (st : statement)
    : result (list jsval) :=
  if wellBound st then db_query st
  else Err (StoreError "08P01" "bind message does not match the statement").

(** A store that rejects every statement with the same error. *)
Definition failing (e : error) (st : statement) : result (list jsval) := Err e.

(** An object, every key of which occurs once. *)
Definition uniqueKeys (v : jsval) : Prop :=
  match v with
  | JObj o => NoDup (map fst o)
  | _ => False
  end.

(** A company row of the listing: an object with unique keys whose [jobs]
    column is an array of such objects. *)
Definition companyRow (v : jsval) : Prop :=
  uniqueKeys v
  /\ exists jobs, prop v "jobs" = JArr jobs /\ Forall uniqueKeys jobs.

(** A company as the listing of all jobs returns it: neither description
    nor logo, and no job that still carries the handle of its company. *)
Definition listedCompany (v : jsval) : Prop :=
  hasOwnProperty v "description" = false
  /\ hasOwnProperty v "logoUrl" = false
  /\ exists jobs, prop v "jobs" = JArr jobs
                  /\ Forall (fun job => hasOwnProperty job "company_handle" = false) jobs.

End JobSql.

(** ** routes/jobs.js *)

Module JobRoutes.
Import JS Job.

(** What a handler sends: the status and the JSON body. *)
Record response : Type := { status : nat; body : jsval }.

Inductive schema : Type := jobNewSchema | jobFilterSchema | jobUpdateSchema.

(** [err.code === code]. *)
Definition hasCode (err : error) (code : string) : bool :=
  match err with
  | StoreError c _ => String.eqb c code
  | _ => false
  end.

Section Handlers.

Variable db_query : statement -> result (list jsval).
Variable Company_get : jsval -> result jsval.

(** [jsonschema.validate] and the [BadRequestError] made of its errors
    (neither the schemas nor [expressError.js] are among the sources): the
    message of the error thrown when the instance does not validate. *)
Variable schemaError : schema -> jsval -> option string.

Definition validated (s : schema) (instance : jsval) : result unit :=
  match schemaError s instance with
  | Some message => Err (BadRequestError message)
  | None => Ok tt
  end.

(** [POST /]: the response, or the error passed to [next]. *)
Definition postJob (reqBody : jsval) : result response :=
  match (_ <- validated jobNewSchema reqBody ;;
         job <- create db_query reqBody ;;
         Ok {| status := 201; body := JObj [("job", job)] |}) with
  | Ok res => Ok res
  | Err err =>
      if hasCode err "23503" then
        Err (NotFoundError
               ("Job NOT created: companyHandle '"
                ++ ToString (prop reqBody "companyHandle") ++ "' does not exist"))
      else Err err
  end.

(** [GET /]. *)
Definition getJobs (reqQuery : obj) : result response :=
  _ <- validated jobFilterSchema (JObj reqQuery) ;;
  jobs <- findAll db_query Company_get (JStr "") "" reqQuery ;;
  Ok {| status := 200; body := JObj [("jobs", JArr jobs)] |}.

(** [GET /:id]. *)
Definition getJob (id : string) : result response :=
  jobDetail <- Job.get db_query (JStr id) ;;
  Ok {| status := 200; body := JObj [("jobDetail", jobDetail)] |}.

(** [PATCH /:id]. *)
Definition patchJob (id : string) (reqBody : jsval) : result response :=
  _ <- validated jobUpdateSchema reqBody ;;
  job <- update db_query (JStr id) reqBody ;;
  Ok {| status := 200; body := JObj [("job", job)] |}.

(** [DELETE /:id]. *)
Definition deleteJob (id : string) : result response :=
  _ <- remove db_query (JStr id) ;;
  Ok {| status := 200; body := JObj [("deleted", JStr id)] |}.

End Handlers.

End JobRoutes.

(** ** models/user.js *)

Module User.
Import JS Sql Job Spec.

(** The statements the User model sends to [db.query], in the order of
    the source, with their bound values and the computed parts of the
    UPDATE. *)
Inductive statement : Type :=
| SelectUser (values : list jsval)
| SelectUsername (values : list jsval)
| InsertUser (values : list jsval)
| SelectApplication (values : list jsval)
| InsertApplication (values : list jsval)
| SelectUsers
| SelectUserJobs (values : list jsval)
| UpdateUser (setCols usernameVarIdx : string) (values : list jsval)
| DeleteUser (values : list jsval).

(** What a function of the model throws: an error of the kinds above, an
    [UnauthorizedError], or an [ExpressError] with its status. *)
Inductive thrown : Type :=
| Plain (e : error)
| UnauthorizedError (message : string)
| ExpressError (message : string) (status : nat).

Inductive outcome (A : Type) : Type :=
| Returned (a : A)
| Thrown (t : thrown).
Arguments Returned {A} a.
Arguments Thrown {A} t.


(** The mapping [User.update] gives to the update builder. *)
Definition userColumns : jsval :=
  JObj [ ("firstName", JStr "first_name");
         ("lastName", JStr "last_name");
         ("isAdmin", JStr "is_admin") ].

Section Repository.

Variable db_query : statement -> result (list jsval).

(** [bcrypt.hash(password, BCRYPT_WORK_FACTOR)] and [bcrypt.compare]:
    the library and the configured work factor are not among the
    sources. *)
Variable bcrypt_hash : jsval -> result jsval.
Variable bcrypt_compare : jsval -> jsval -> result bool.

(** [User.authenticate(username, password)]. *)
Definition authenticate (username password : jsval) : outcome jsval :=
  match db_query (SelectUser [username]) with
  | Err e => Thrown (Plain e)
  | Ok rows =>
      let user := first rows in
      if ToBoolean user then
        match bcrypt_compare password (prop user "password") with
        | Err e => Thrown (Plain e)
        | Ok isValid =>
            if isValid then
              match deleteProp user "password" with
              | Ok user' => Returned user'
              | Err e => Thrown (Plain e)
              end
            else Thrown (UnauthorizedError "Invalid username/password")
        end
      else Thrown (UnauthorizedError "Invalid username/password")
  end.



(** [User.findAll()]. *)
Definition findAll : result (list jsval) :=
  rows <- db_query SelectUsers ;;
  forEach (fun user =>
             jobs <- getProp user "jobs" ;;
             firstJob <- getProp jobs "0" ;;
             match firstJob with
             | JNull => deleteProp user "jobs"
             | _ => Ok user
             end) rows.

(** The loop of [User.get] over the rows: the job ids pushed so far. *)
Fixpoint collectJobs (rows : list jsval) (jobs : list jsval) : result (list jsval) :=
  match rows with
  | [] => Ok jobs
  | row :: rest =>
      job_id <- getProp row "job_id" ;;
      collectJobs rest (if ToBoolean job_id then (jobs ++ [job_id])%list else jobs)
  end.

(** [user.k = x], in a module under [use strict]. *)
Definition assign (v : jsval) (k : string) (x : jsval) : result jsval :=
  match v with
  | JObj o => Ok (JObj (setProperty o k x))
  | JUndefined | JNull =>
      Err (TypeError ("Cannot set properties of " ++ ToString v
                      ++ " (setting '" ++ k ++ "')"))
  | _ => Err (TypeError ("Cannot create property '" ++ k ++ "' on " ++ ToString v))
  end.

(** [User.get(username)]. *)
Definition get (username : jsval) : result jsval :=
  rows <- db_query (SelectUserJobs [username]) ;;
  let user := first rows in
  if negb (ToBoolean user) then Err (NotFoundError ("No user: " ++ ToString username))
  else
    jobs <- collectJobs rows [] ;;
    user1 <- (if (0 <? List.length jobs)%nat then assign user "jobs" (JArr jobs)
              else Ok user) ;;
    deleteProp user1 "job_id".

(** [User.update(username, data)]. *)
Definition update (username data : jsval) : result jsval :=
  password <- getProp data "password" ;;
  data1 <- (if ToBoolean password then
              hashed <- bcrypt_hash password ;;
              assign data "password" hashed
            else Ok data) ;;
  '(setCols, values) <- sqlForPartialUpdate data1 userColumns ;;
  let usernameVarIdx := "$" ++ string_of_nat (List.length values + 1) in
  rows <- db_query (UpdateUser setCols usernameVarIdx (values ++ [username])%list) ;;
  let user := first rows in
  if negb (ToBoolean user) then Err (NotFoundError ("No user: " ++ ToString username))
  else deleteProp user "password".

(** [User.remove(username)]. *)
Definition remove (username : jsval) : result jsval :=
  rows <- db_query (DeleteUser [username]) ;;
  if negb (ToBoolean (first rows))
  then Err (NotFoundError ("No user: " ++ ToString username))
  else Ok JUndefined.

End Repository.

End User.

(** ** Properties of the clause builders *)

Module SqlTheory.
Import JS Sql Spec.

(** *** The unit tests of [sql.test.js] that the builder passes *)

Example partialUpdate_no_mapping :
  sqlForPartialUpdate
    (ofStrings [("password", "val_pass"); ("email", "val_email")]) (JObj [])
  = Ok (dquote ++ "password" ++ dquote ++ "=$1, " ++ dquote ++ "email" ++ dquote ++ "=$2",
        [JStr "val_pass"; JStr "val_email"]).
Proof. reflexivity. Qed.

Example partialUpdate_with_mapping :
  sqlForPartialUpdate
    (ofStrings [("firstName", "val_first_name"); ("lastName", "val_last_name");
                ("email", "val_email")])
    (ofStrings [("firstName", "first_name"); ("lastName", "last_name")])
  = Ok (dquote ++ "first_name" ++ dquote ++ "=$1, " ++ dquote ++ "last_name" ++ dquote
        ++ "=$2, " ++ dquote ++ "email" ++ dquote ++ "=$3",
        [JStr "val_first_name"; JStr "val_last_name"; JStr "val_email"]).
Proof. reflexivity. Qed.

Example filter_companies_max_lt_min :
  sqlForFilter
    (ofStrings [("nameLike", "txt in name"); ("minEmployees", "20");
                ("maxEmployees", "10")]) "companies"
  = Err (BadRequestError
      "Filter is incorrect: 'minEmployees', 20, is NOT less than 'maxEmployees', 10.").
Proof. reflexivity. Qed.

Example filter_companies_invalid_field :
  sqlForFilter
    (ofStrings [("invalidField", "txt in name"); ("minEmployees", "20");
                ("maxEmployees", "200")]) "companies"
  = Err (BadRequestError "Filtering 'companies' by 'invalidField' is not possible.").
Proof. reflexivity. Qed.

Example filter_jobs_all_fields :
  sqlForFilter
    (ofStrings [("title", "job title"); ("hasEquity", "true"); ("minSalary", "100000")])
    "jobs"
  = Ok ("WHERE title ILIKE $1 AND equity > 0 AND salary >= $2",
        [JStr "%job title%"; JNum (num_of_Z 100000)]).
Proof. reflexivity. Qed.

Example filter_jobs_other_order :
  sqlForFilter (ofStrings [("minSalary", "100000"); ("title", "job title")]) "jobs"
  = Ok ("WHERE salary >= $1 AND title ILIKE $2",
        [JNum (num_of_Z 100000); JStr "%job title%"]).
Proof. reflexivity. Qed.

(** *** Helper lemmas *)

Lemma hasOwnProperty_inhabited (v : jsval) (k : string) :
  hasOwnProperty v k = true ->
  ToBoolean v = true /\ isNullish v = false /\ ownProperties v <> [].
Proof.
  unfold hasOwnProperty.
  destruct v as [ | | b | n | s | l | o ]; simpl; try discriminate.
  - destruct s as [ | c s ]; simpl; [ discriminate | ].
    intros _. repeat split; discriminate.
  - destruct l as [ | x l ]; simpl; [ discriminate | ].
    intros _. repeat split; discriminate.
  - destruct o as [ | p o ]; simpl; [ discriminate | ].
    intros _. repeat split; discriminate.
Qed.

Lemma filterColumn_hasEquity (dataForFilter : jsval) (valuesOut : list jsval) :
  filterColumn dataForFilter "jobs" "hasEquity" valuesOut
  = Ok ((if ToBoolean (prop dataForFilter "hasEquity")
         then "equity > 0" else "equity >= 0"), valuesOut).
Proof.
  unfold filterColumn. simpl.
  destruct (ToBoolean (prop dataForFilter "hasEquity")); reflexivity.
Qed.

(** A [hasEquity] filter alone: the literal fragment follows the truthiness
    of the value, and no value is bound. *)
Lemma sqlForFilter_hasEquity_only (v : jsval) :
  sqlForFilter (JObj [("hasEquity", v)]) "jobs"
  = Ok ((if ToBoolean v then "WHERE equity > 0" else "WHERE equity >= 0"), []).
Proof.
  unfold sqlForFilter. simpl.
  unfold filterColumn. simpl.
  change (prop (JObj [("hasEquity", v)]) "hasEquity") with v.
  destruct (ToBoolean v); reflexivity.
Qed.

Lemma lookup_ofStrings (l : list (string * string)) (k : string) :
  lookup (map (fun kv => (fst kv, JStr (snd kv))) l) k
  = option_map JStr (lookup l k).
Proof.
  induction l as [ | [k' c] l IH ]; simpl; [ reflexivity | ].
  destruct (String.eqb k' k); [ reflexivity | exact IH ].
Qed.

Lemma getMember_object (jsToSql : obj) (k : string) :
  getMember (JObj jsToSql) k
  = Ok (match lookup jsToSql k with
        | Some x => Own x
        | None =>
            match lookup objectPrototype k with
            | Some text => Inherited text
            | None => Missing
            end
        end).
Proof.
  unfold getMember, ownLength. cbn [isNullish ownProperties].
  destruct (lookup jsToSql k); [ reflexivity | ].
  destruct (String.eqb k "length"); destruct (lookup objectPrototype k); reflexivity.
Qed.





(** The builder's callback, driven by the [fields] object, does what the
    table of recognized fields says. *)
Lemma filterColumn_fragment (dataForFilter : jsval) (table colName : string)
    (valuesOut : list jsval) :
  filterColumn dataForFilter table colName valuesOut
  = fragment dataForFilter table colName valuesOut.
Proof.
  unfold filterColumn, fragment, entity, fieldOf. cbn [lookup fields].
  rewrite (String.eqb_sym "companies" table), (String.eqb_sym "jobs" table).
  destruct (String.eqb_spec table "companies") as [ -> | _ ].
  - cbn [orb lookup].
    rewrite (String.eqb_sym "nameLike" colName), (String.eqb_sym "minEmployees" colName),
      (String.eqb_sym "maxEmployees" colName).
    destruct (String.eqb_spec colName "nameLike") as [ -> | _ ]; [ reflexivity | ].
    destruct (String.eqb_spec colName "minEmployees") as [ -> | _ ]; [ reflexivity | ].
    destruct (String.eqb_spec colName "maxEmployees") as [ -> | _ ]; reflexivity.
  - cbn [orb]. destruct (String.eqb_spec table "jobs") as [ -> | _ ]; [ | reflexivity ].
    cbn [lookup].
    rewrite (String.eqb_sym "title" colName), (String.eqb_sym "minSalary" colName),
      (String.eqb_sym "hasEquity" colName).
    destruct (String.eqb_spec colName "title") as [ -> | _ ]; [ reflexivity | ].
    destruct (String.eqb_spec colName "minSalary") as [ -> | _ ]; [ reflexivity | ].
    destruct (String.eqb_spec colName "hasEquity") as [ -> | _ ]; [ | reflexivity ].
    cbn. destruct (ToBoolean (prop dataForFilter "hasEquity")); reflexivity.
Qed.

Lemma prop_ofStrings (l : list (string * string)) (k : string) :
  In k (map fst l) -> exists s, prop (ofStrings l) k = JStr s.
Proof.
  intros Hin. unfold prop, ofStrings. cbn [ownProperties].
  rewrite lookup_ofStrings.
  induction l as [ | [k' c] l IH ]; simpl in *; [ contradiction | ].
  destruct (String.eqb_spec k' k) as [ _ | Hneq ].
  - exists c. reflexivity.
  - destruct Hin as [ Heq | Hin ]; [ congruence | exact (IH Hin) ].
Qed.

(** A recognized field whose value is a string is built without error. *)
Lemma fragment_of_string (dataForFilter : jsval) (table colName s : string)
    (valuesOut : list jsval) :
  entity table = true ->
  recognized table colName = true ->
  prop dataForFilter colName = JStr s ->
  exists clause valuesOut',
    fragment dataForFilter table colName valuesOut = Ok (clause, valuesOut').
Proof.
  unfold fragment, recognized. intros -> Hrec Hget.
  destruct (fieldOf table colName) as [ [[column op] [ | | ]] | ];
    [ | | | discriminate ]; rewrite ?Hget; eauto.
Qed.


(** The builder stops at the first field the entity does not recognize,
    unless a text field before it holds no string, on which [trim] throws
    first. *)
Lemma filterColumns_first_unrecognized (dataForFilter : jsval) (table k : string) :
  entity table = true ->
  forall (keys : list string) (valuesOut : list jsval),
    find (fun c => negb (recognized table c)) keys = Some k ->
    filterColumns dataForFilter table keys valuesOut
    = Err (match trimErrorBefore dataForFilter table keys with
           | Some e => e
           | None => notPossible table k
           end).
Proof.
  intros Hent keys.
  induction keys as [ | c keys IH ]; intros valuesOut Hfind; [ discriminate | ].
  cbn [filterColumns find trimErrorBefore] in *. rewrite filterColumn_fragment.
  unfold fragment, recognized in *. rewrite Hent.
  destruct (fieldOf table c) as [ [[column op] [ | | ]] | ]; cbn [negb] in Hfind.
  - destruct (prop dataForFilter c); cbn [trimError bind]; try reflexivity.
    now rewrite (IH _ Hfind).
  - cbn [bind]. now rewrite (IH _ Hfind).
  - cbn [bind]. now rewrite (IH _ Hfind).
  - injection Hfind as <-. reflexivity.
Qed.

(** A filter whose values are strings has no text field on which [trim]
    throws. *)
Lemma trimErrorBefore_ofStrings (filter : list (string * string)) (table : string) :
  forall keys,
    (forall c, In c keys -> In c (map fst filter)) ->
    trimErrorBefore (ofStrings filter) table keys = None.
Proof.
  induction keys as [ | c keys IH ]; intros Hin; [ reflexivity | ].
  cbn [trimErrorBefore].
  destruct (fieldOf table c) as [ [[column op] [ | | ]] | ]; try reflexivity;
    try (apply IH; intros c' Hc'; apply Hin; right; exact Hc').
  destruct (prop_ofStrings filter c (Hin c (or_introl eq_refl))) as [text ->].
  cbn [trimError]. apply IH. intros c' Hc'. apply Hin. right. exact Hc'.
Qed.

(** *** Placeholders of a clause *)

Lemma append_assoc (a b c : string) : (a ++ b) ++ c = a ++ b ++ c.
Proof. induction a as [ | x a IH ]; simpl; [ reflexivity | now rewrite IH ]. Qed.

Lemma append_nil_r (a : string) : a ++ EmptyString = a.
Proof. induction a as [ | x a IH ]; simpl; [ reflexivity | now rewrite IH ]. Qed.

Lemma takeDigits_uint (u : uint) (rest : string) :
  startsWithDigit rest = false ->
  takeDigits (NilEmpty.string_of_uint u ++ rest) = (NilEmpty.string_of_uint u, rest).
Proof.
  intros Hrest.
  induction u as [ | u IH | u IH | u IH | u IH | u IH | u IH | u IH | u IH | u IH | u IH ];
    cbn [NilEmpty.string_of_uint append takeDigits];
    try (change (digitOf "0") with (Some 0%Z)); try (change (digitOf "1") with (Some 1%Z));
    try (change (digitOf "2") with (Some 2%Z)); try (change (digitOf "3") with (Some 3%Z));
    try (change (digitOf "4") with (Some 4%Z)); try (change (digitOf "5") with (Some 5%Z));
    try (change (digitOf "6") with (Some 6%Z)); try (change (digitOf "7") with (Some 7%Z));
    try (change (digitOf "8") with (Some 8%Z)); try (change (digitOf "9") with (Some 9%Z));
    try (rewrite IH; reflexivity).
  destruct rest as [ | c rest ]; [ reflexivity | ].
  cbn [takeDigits]. cbn [startsWithDigit] in Hrest.
  destruct (digitOf c); [ discriminate | reflexivity ].
Qed.

Lemma placeholders_uint (u : uint) (rest : string) :
  placeholders (NilEmpty.string_of_uint u ++ rest) = placeholders rest.
Proof.
  induction u; cbn [NilEmpty.string_of_uint append]; [ reflexivity | .. ];
    cbn [placeholders]; exact IHu.
Qed.

Lemma placeholders_no_dollar (pre rest : string) :
  hasDollar pre = false -> placeholders (pre ++ rest) = placeholders rest.
Proof.
  induction pre as [ | c pre IH ]; intros Hpre; [ reflexivity | ].
  cbn [hasDollar] in Hpre. apply orb_false_iff in Hpre as [Hc Hpre].
  cbn [append placeholders]. rewrite Hc. exact (IH Hpre).
Qed.

Lemma to_uint_not_Nil (n : nat) : Nat.to_uint n <> Nil.
Proof.
  destruct n as [ | n ]; [ discriminate | ].
  intros Hnil. pose proof (Unsigned.of_to (S n)) as Hof.
  rewrite Hnil in Hof. discriminate.
Qed.

Lemma string_of_nat_not_empty (n : nat) : isEmpty (string_of_nat n) = false.
Proof.
  unfold string_of_nat. pose proof (to_uint_not_Nil n) as Hn.
  destruct (Nat.to_uint n); [ congruence | .. ]; reflexivity.
Qed.

Lemma numeral_string_of_nat (n : nat) : numeral (string_of_nat n) = n.
Proof.
  unfold numeral, string_of_nat. rewrite NilEmpty.usu. apply Unsigned.of_to.
Qed.

(** A placeholder is read back as the number that was printed. *)
Lemma placeholders_parameter (pre rest : string) (n : nat) :
  hasDollar pre = false ->
  startsWithDigit rest = false ->
  placeholders ((pre ++ "$" ++ string_of_nat n) ++ rest) = n :: placeholders rest.
Proof.
  intros Hpre Hrest.
  rewrite append_assoc, (placeholders_no_dollar _ _ Hpre), append_assoc.
  cbn [append placeholders]. change (Ascii.eqb "$" "$") with true. cbv iota.
  unfold string_of_nat at 1. rewrite (takeDigits_uint _ _ Hrest).
  fold (string_of_nat n).
  rewrite string_of_nat_not_empty, numeral_string_of_nat.
  unfold string_of_nat. rewrite placeholders_uint. reflexivity.
Qed.

(** One row of the table of recognized fields: when [colName] is
    [name], the row is known and the facts about it hold by computation. *)
Ltac field_case colName name :=
  destruct (String.eqb_spec colName name) as [ -> | _ ];
  [ intros [= <- <- <-]; repeat split; reflexivity | ].

(** The text before the placeholder of a recognized field has no dollar
    sign, and only [hasEquity] is a flag. *)
Lemma fieldOf_text (table colName column op : string) (kind : valueKind) :
  fieldOf table colName = Some (column, op, kind) ->
  hasDollar (column ++ " " ++ op ++ " ") = false
  /\ hasDollar column = false
  /\ String.eqb colName "hasEquity" = match kind with Flag => true | _ => false end.
Proof.
  unfold fieldOf.
  destruct (String.eqb_spec table "companies") as [ _ | _ ].
  - field_case colName "nameLike". field_case colName "minEmployees".
    field_case colName "maxEmployees". discriminate.
  - destruct (String.eqb_spec table "jobs") as [ _ | _ ]; [ | discriminate ].
    field_case colName "title". field_case colName "minSalary".
    field_case colName "hasEquity". discriminate.
Qed.

(** One field of a filter: a flag binds no value and leaves no
    placeholder, any other field binds one value under the next number. *)
Lemma fragment_placeholders (dataForFilter : jsval) (table colName clause : string)
    (valuesOut valuesOut' : list jsval) :
  fragment dataForFilter table colName valuesOut = Ok (clause, valuesOut') ->
  recognized table colName = true
  /\ forall rest, startsWithDigit rest = false ->
       if String.eqb colName "hasEquity"
       then valuesOut' = valuesOut
            /\ placeholders (clause ++ rest) = placeholders rest
       else List.length valuesOut' = List.length valuesOut + 1
            /\ placeholders (clause ++ rest)
               = (List.length valuesOut + 1) :: placeholders rest.
Proof.
  unfold fragment, recognized.
  destruct (entity table); [ | discriminate ].
  destruct (fieldOf table colName) as [ [[column op] kind] | ] eqn:Hfield;
    [ | discriminate ].
  destruct (fieldOf_text _ _ _ _ _ Hfield) as (Hpre & Hcol & ->).
  assert (Hparam : forall n rest, startsWithDigit rest = false ->
            placeholders ((column ++ " " ++ op ++ " $" ++ string_of_nat n) ++ rest)
            = n :: placeholders rest).
  { intros n rest Hrest.
    rewrite <- (placeholders_parameter (column ++ " " ++ op ++ " ") rest n Hpre Hrest).
    rewrite !append_assoc. reflexivity. }
  destruct kind.
  - destruct (prop dataForFilter colName); try discriminate.
    intros [= <- <-]. split; [ reflexivity | ]. intros rest Hrest. split.
    + rewrite length_app. reflexivity.
    + apply Hparam. exact Hrest.
  - intros [= <- <-]. split; [ reflexivity | ]. intros rest Hrest. split.
    + rewrite length_app. reflexivity.
    + apply Hparam. exact Hrest.
  - intros [= <- <-]. split; [ reflexivity | ]. intros rest _. split; [ reflexivity | ].
    rewrite append_assoc, (placeholders_no_dollar _ _ Hcol).
    destruct (ToBoolean (prop dataForFilter colName)); reflexivity.
Qed.

Lemma filterColumns_length (dataForFilter : jsval) (table : string) :
  forall (keys : list string) (valuesOut : list jsval) cols valuesOut',
    filterColumns dataForFilter table keys valuesOut = Ok (cols, valuesOut') ->
    List.length cols = List.length keys.
Proof.
  induction keys as [ | k keys IH ]; intros valuesOut cols valuesOut'; cbn [filterColumns].
  - intros [= <- _]. reflexivity.
  - destruct (filterColumn dataForFilter table k valuesOut) as [ [clause v1] | ];
      [ | discriminate ].
    cbn [bind].
    destruct (filterColumns dataForFilter table keys v1) as [ [cols' v2] | ] eqn:Hrest;
      [ | discriminate ].
    cbn [bind]. intros [= <- _]. cbn [List.length]. f_equal. exact (IH _ _ _ Hrest).
Qed.

(** The clauses of the fields, joined: the placeholders count on from the
    values already bound, one per field that is not a flag. *)
Lemma filterColumns_placeholders (dataForFilter : jsval) (table : string) :
  forall (keys : list string) (valuesOut : list jsval) cols valuesOut',
    filterColumns dataForFilter table keys valuesOut = Ok (cols, valuesOut') ->
    forallb (recognized table) keys = true
    /\ List.length valuesOut'
       = List.length valuesOut + List.length (parameterized keys)
    /\ forall rest, startsWithDigit rest = false ->
         placeholders (join " AND " cols ++ rest)
         = (seq (List.length valuesOut + 1) (List.length (parameterized keys))
            ++ placeholders rest)%list.
Proof.
  induction keys as [ | k keys IH ]; intros valuesOut cols valuesOut'; cbn [filterColumns].
  - intros [= <- <-]. split; [ reflexivity | ].
    split; [ cbn; lia | intros rest _; reflexivity ].
  - rewrite filterColumn_fragment.
    destruct (fragment dataForFilter table k valuesOut) as [ [clause v1] | ] eqn:Hk;
      [ | discriminate ].
    cbn [bind].
    destruct (filterColumns dataForFilter table keys v1) as [ [cols' v2] | ] eqn:Hrest;
      [ | discriminate ].
    cbn [bind]. intros [= <- <-].
    destruct (fragment_placeholders _ _ _ _ _ _ Hk) as (Hrec & Hone).
    destruct (IH _ _ _ Hrest) as (Hall & Hlen & Hmany).
    pose proof (filterColumns_length _ _ _ _ _ _ Hrest) as Hcols.
    cbn [forallb]. rewrite Hrec, Hall. split; [ reflexivity | ].
    assert (Hjoin : forall rest,
              join " AND " (clause :: cols') ++ rest
              = clause ++ (match cols' with
                           | [] => rest
                           | _ => " AND " ++ join " AND " cols' ++ rest
                           end)).
    { intros rest. destruct cols'; cbn [join]; [ reflexivity | ].
      now rewrite !append_assoc. }
    assert (Htail : forall rest, startsWithDigit rest = false ->
              startsWithDigit (match cols' with
                               | [] => rest
                               | _ => " AND " ++ join " AND " cols' ++ rest
                               end) = false
              /\ placeholders (match cols' with
                               | [] => rest
                               | _ => " AND " ++ join " AND " cols' ++ rest
                               end)
                 = (seq (List.length v1 + 1) (List.length (parameterized keys))
                    ++ placeholders rest)%list).
    { intros rest Hrest'. destruct cols' as [ | c cols' ].
      - destruct keys; [ | discriminate ]. split; [ exact Hrest' | reflexivity ].
      - split; [ reflexivity | ].
        rewrite (placeholders_no_dollar " AND " _ eq_refl).
        apply Hmany. exact Hrest'. }
    unfold parameterized in *. cbn [filter].
    destruct (String.eqb k "hasEquity"); cbn [negb List.length].
    + split.
      * destruct (Hone EmptyString eq_refl) as [-> _]. exact Hlen.
      * intros rest Hrest'. rewrite Hjoin.
        destruct (Htail rest Hrest') as [Hd Hp].
        destruct (Hone _ Hd) as [-> ->]. exact Hp.
    + split.
      * destruct (Hone EmptyString eq_refl) as [Hv1 _]. lia.
      * intros rest Hrest'. rewrite Hjoin.
        destruct (Htail rest Hrest') as [Hd Hp].
        destruct (Hone _ Hd) as [Hv1 ->]. rewrite Hp, Hv1.
        cbn [seq app]. replace (S (List.length valuesOut + 1))
          with (List.length valuesOut + 1 + 1) by lia. reflexivity.
Qed.

Lemma falsy_no_properties (v : jsval) :
  ToBoolean v = false -> ownProperties v = [].
Proof.
  destruct v as [ | | b | n | s | l | o ]; try reflexivity; try discriminate.
  destruct s; [ reflexivity | discriminate ].
Qed.

(** When the builder returns, every key of the filter is a recognized
    field of the entity. *)
Lemma sqlForFilter_ok_recognized (filter : obj) (table whereClause : string)
    (values : list jsval) :
  sqlForFilter (JObj filter) table = Ok (whereClause, values) ->
  forallb (recognized table) (map fst filter) = true.
Proof.
  unfold sqlForFilter, Object_keys. cbn [ToBoolean isNullish ownProperties bind].
  destruct (0 <? List.length (map fst filter))%nat eqn:Hlen.
  - destruct (hasOwnProperty (JObj filter) "minEmployees"
              && hasOwnProperty (JObj filter) "maxEmployees"
              && num_le (ToNumber (prop (JObj filter) "maxEmployees"))
                        (ToNumber (prop (JObj filter) "minEmployees")))%bool;
      [ discriminate | ].
    destruct (filterColumns (JObj filter) table (map fst filter) [])
      as [ [cols valuesOut] | ] eqn:Hcols; [ | discriminate ].
    intros _. exact (proj1 (filterColumns_placeholders _ _ _ _ _ _ Hcols)).
  - destruct filter; [ reflexivity | discriminate ].
Qed.

(** *** Properties stated by the specification *)

(** C1 (the code departs from it): a [hasEquity] filter whose value is the
    query-string text [false] makes the builder emit [equity > 0], because a
    non-empty string is truthy; the tests and the comments of the builder
    ask for the no-filter fragment there. No parameter is bound. *)
Theorem hasEquity_false_text_is_truthy :
  ToBoolean (JStr "false") = true
  /\ sqlForFilter (ofStrings [("hasEquity", "false")]) "jobs"
     = Ok ("WHERE equity > 0", [])
  /\ sqlForFilter (JObj [("hasEquity", JBool false)]) "jobs"
     = Ok ("WHERE equity >= 0", [])
  /\ sqlForFilter
       (ofStrings [("hasEquity", "false"); ("minSalary", "100000");
                   ("title", "job title")]) "jobs"
     = Ok ("WHERE equity > 0 AND salary >= $1 AND title ILIKE $2",
           [JNum (num_of_Z 100000); JStr "%job title%"]).
Proof. repeat split; reflexivity. Qed.

(** C3: when the filter has both [minEmployees] and [maxEmployees] and
    the number of [maxEmployees] is less than or equal to the number of
    [minEmployees], the builder throws the validation error of the
    cross-field test; no clause and no value is returned, whatever the
    entity and the other fields are. *)
Theorem sqlForFilter_max_le_min (dataForFilter : jsval) (table : string) :
  hasOwnProperty dataForFilter "minEmployees" = true ->
  hasOwnProperty dataForFilter "maxEmployees" = true ->
  num_le (ToNumber (prop dataForFilter "maxEmployees"))
         (ToNumber (prop dataForFilter "minEmployees")) = true ->
  sqlForFilter dataForFilter table
  = Err (BadRequestError (minMaxMessage dataForFilter)).
Proof.
  intros Hmin Hmax Hle.
  destruct (hasOwnProperty_inhabited _ _ Hmin) as (Htrue & Hnull & Hne).
  unfold sqlForFilter, Object_keys.
  rewrite Htrue, Hnull. simpl.
  destruct (ownProperties dataForFilter) as [ | p ps ]; [ congruence | ].
  simpl. rewrite Hmin, Hmax, Hle. reflexivity.
Qed.

(** The cross-field error for a maximum below the minimum and for a maximum
    equal to the minimum. *)
Lemma sqlForFilter_max_le_min_witness :
  sqlForFilter
    (ofStrings [("nameLike", "txt in name"); ("minEmployees", "20");
                ("maxEmployees", "10")]) "companies"
  = Err (BadRequestError
      "Filter is incorrect: 'minEmployees', 20, is NOT less than 'maxEmployees', 10.")
  /\ sqlForFilter
       (ofStrings [("nameLike", "txt in name"); ("minEmployees", "20");
                   ("maxEmployees", "20")]) "companies"
     = Err (BadRequestError
      "Filter is incorrect: 'minEmployees', 20, is NOT less than 'maxEmployees', 20.").
Proof.
  split.
  - apply (sqlForFilter_max_le_min
             (ofStrings [("nameLike", "txt in name"); ("minEmployees", "20");
                         ("maxEmployees", "10")]) "companies"); reflexivity.
  - apply (sqlForFilter_max_le_min
             (ofStrings [("nameLike", "txt in name"); ("minEmployees", "20");
                         ("maxEmployees", "20")]) "companies"); reflexivity.
Defined.

(** C6: for an empty, a [null] and an [undefined] filter the builder
    returns the empty clause, without [WHERE], and no value; it does not
    throw, so the answer differs from every validation failure. *)
Theorem sqlForFilter_no_filter (table : string) :
  sqlForFilter (JObj []) table = Ok ("", [])
  /\ sqlForFilter JNull table = Ok ("", [])
  /\ sqlForFilter JUndefined table = Ok ("", [])
  /\ forall e, sqlForFilter (JObj []) table <> Err e
            /\ sqlForFilter JNull table <> Err e
            /\ sqlForFilter JUndefined table <> Err e.
Proof.
  repeat split; try reflexivity; discriminate.
Qed.

(** C7: with an empty mapping of updates the builder throws the
    validation error [No data], whatever the field-to-column argument is,
    and returns no clause and no values. *)
Theorem sqlForPartialUpdate_no_data (jsToSql : jsval) :
  sqlForPartialUpdate (JObj []) jsToSql = Err (BadRequestError "No data").
Proof. reflexivity. Qed.

(** C8: on companies, the filter [{nameLike: "net ", minEmployees: "5",
    maxEmployees: "50"}] gives the clause with [$1], [$2], [$3] and the
    values [%net%], [5] and [50]: the text is trimmed and wrapped, the two
    bounds become numbers. *)
Theorem sqlForFilter_companies_example :
  sqlForFilter
    (ofStrings [("nameLike", "net "); ("minEmployees", "5"); ("maxEmployees", "50")])
    "companies"
  = Ok ("WHERE name ILIKE $1 AND num_employees >= $2 AND num_employees <= $3",
        [JStr "%net%"; JNum (num_of_Z 5); JNum (num_of_Z 50)]).
Proof. reflexivity. Qed.







(** C10: when the builder returns, the placeholders of the clause are
    [$1] to [$N] from left to right, [N] being the number of values; every
    field of the filter is a recognized one, and the values are as many as
    the fields other than [hasEquity], which binds none wherever it stands
    among the keys. (This holds for the empty clause as well.) *)
Theorem sqlForFilter_placeholders (dataForFilter : jsval)
    (table whereClause : string) (values : list jsval) :
  sqlForFilter dataForFilter table = Ok (whereClause, values) ->
  placeholders whereClause = seq 1 (List.length values)
  /\ List.length values
     = List.length (parameterized (map fst (ownProperties dataForFilter)))
  /\ forallb (recognized table) (map fst (ownProperties dataForFilter)) = true.
Proof.
  unfold sqlForFilter, Object_keys.
  destruct (ToBoolean dataForFilter) eqn:Htruthy.
  - assert (Hnull : isNullish dataForFilter = false)
      by (destruct dataForFilter; try reflexivity; discriminate).
    rewrite Hnull. cbn [bind].
    destruct (map fst (ownProperties dataForFilter)) as [ | k keys ] eqn:Hkeys.
    + intros [= <- <-]. repeat split.
    + cbn [List.length Nat.ltb Nat.leb].
      destruct (hasOwnProperty dataForFilter "minEmployees"
                && hasOwnProperty dataForFilter "maxEmployees"
                && num_le (ToNumber (prop dataForFilter "maxEmployees"))
                          (ToNumber (prop dataForFilter "minEmployees")))%bool;
        [ discriminate | ].
      destruct (filterColumns dataForFilter table (k :: keys) [])
        as [ [cols valuesOut] | ] eqn:Hcols; [ | discriminate ].
      cbn [bind]. intros [= <- <-].
      destruct (filterColumns_placeholders _ _ _ _ _ _ Hcols) as (Hall & Hlen & Hmany).
      cbn [List.length Nat.add] in Hlen, Hmany.
      split; [ | split; [ exact Hlen | exact Hall ] ].
      change (placeholders ("WHERE " ++ join " AND " cols)
              = seq 1 (List.length valuesOut)).
      rewrite (placeholders_no_dollar "WHERE " _ eq_refl).
      rewrite <- (append_nil_r (join " AND " cols)).
      rewrite (Hmany EmptyString eq_refl), Hlen. cbn [placeholders].
      apply app_nil_r.
  - rewrite (falsy_no_properties _ Htruthy). intros [= <- <-]. repeat split.
Qed.

(** A jobs filter with [hasEquity] between two bound fields. *)
Lemma sqlForFilter_placeholders_witness :
  placeholders "WHERE title ILIKE $1 AND equity > 0 AND salary >= $2" = [1; 2]
  /\ List.length [JStr "%job title%"; JNum (num_of_Z 100000)] = 2.
Proof.
  refine (let H := sqlForFilter_placeholders
                     (ofStrings [("title", "job title"); ("hasEquity", "true");
                                 ("minSalary", "100000")]) "jobs"
                     "WHERE title ILIKE $1 AND equity > 0 AND salary >= $2"
                     [JStr "%job title%"; JNum (num_of_Z 100000)] eq_refl in
          conj (proj1 H) (proj1 (proj2 H))).
Defined.

End SqlTheory.

(** ** Properties of the number conversion *)

Module NumberTheory.
Import JS Spec.

Lemma digit_not_white (c : ascii) (z : Z) :
  digitOf c = Some z -> isWhiteSpace c = false.
Proof.
  unfold digitOf, isWhiteSpace.
  destruct ((48 <=? Z.of_nat (nat_of_ascii c))%Z
            && (Z.of_nat (nat_of_ascii c) <=? 57)%Z)%bool eqn:Hd; [ | discriminate ].
  intros _. apply andb_true_iff in Hd as [Hlo _]. apply Z.leb_le in Hlo.
  apply orb_false_iff. split.
  - apply andb_false_iff. right. apply Nat.leb_gt. lia.
  - apply Nat.eqb_neq. lia.
Qed.

Lemma decimalChar_not_white (c : ascii) :
  decimalChar c = true -> isWhiteSpace c = false.
Proof.
  unfold decimalChar. destruct (digitOf c) as [ z | ] eqn:Hd.
  - intros _. exact (digit_not_white c z Hd).
  - destruct (Ascii.eqb_spec c "."); [ subst; reflexivity | discriminate ].
Qed.

(** A digit or a point is none of the letters and signs the parser looks
    for. *)
Lemma decimalChar_other (c k : ascii) :
  decimalChar c = true -> decimalChar k = false -> Ascii.eqb c k = false.
Proof.
  intros Hc Hk. destruct (Ascii.eqb_spec c k); [ congruence | reflexivity ].
Qed.

Lemma takeDigits_split (s : string) :
  forall ip r, takeDigits s = (ip, r) -> s = ip ++ r /\ allDigits ip = true.
Proof.
  induction s as [ | c s IH ]; intros ip r; cbn [takeDigits].
  - intros [= <- <-]. split; reflexivity.
  - destruct (digitOf c) as [ z | ] eqn:Hd.
    + destruct (takeDigits s) as [ds rest]. intros [= <- <-].
      destruct (IH ds rest eq_refl) as [-> Hds]. split; [ reflexivity | ].
      cbn [allDigits]. rewrite Hd. exact Hds.
    + intros [= <- <-]. split; reflexivity.
Qed.

Lemma takeDigits_allDigits (ds : string) :
  allDigits ds = true -> takeDigits ds = (ds, EmptyString).
Proof.
  induction ds as [ | c ds IH ]; cbn [allDigits takeDigits]; [ reflexivity | ].
  destruct (digitOf c); [ | discriminate ].
  intros Hds. rewrite (IH Hds). reflexivity.
Qed.

Lemma allDigits_decimalChars (ds : string) :
  allDigits ds = true -> decimalChars ds = true.
Proof.
  induction ds as [ | c ds IH ]; cbn [allDigits decimalChars]; [ reflexivity | ].
  unfold decimalChar. destruct (digitOf c); [ | discriminate ].
  intros Hds. rewrite (IH Hds). reflexivity.
Qed.

Lemma decimalChars_app (a b : string) :
  decimalChars (a ++ b) = (decimalChars a && decimalChars b)%bool.
Proof.
  induction a as [ | c a IH ]; cbn [append decimalChars]; [ reflexivity | ].
  rewrite IH. apply andb_assoc.
Qed.

Lemma afterPoint_split (r fp : string) :
  afterPoint r = Some fp -> r = String "." fp.
Proof.
  destruct r as [ | c r ]; cbn [afterPoint]; [ discriminate | ].
  destruct (Ascii.eqb_spec c "."); [ | discriminate ].
  intros [= <-]. subst. reflexivity.
Qed.

(** An unsigned decimal is read, it is made of digits and points, and it
    begins with a digit. *)
Lemma isUnsignedDecimal_read (u : string) :
  isUnsignedDecimal u = true ->
  decimalChars u = true
  /\ (exists c u' z, u = String c u' /\ digitOf c = Some z)
  /\ exists m e, readUnsignedDecimal u = Some (m, e).
Proof.
  unfold isUnsignedDecimal, readUnsignedDecimal.
  destruct (takeDigits u) as [ip r] eqn:Hu.
  destruct (takeDigits_split u ip r Hu) as [-> Hip].
  intros H. apply andb_true_iff in H as [Hne H].
  assert (Hfirst : exists c u' z, ip ++ r = String c u' /\ digitOf c = Some z).
  { destruct ip as [ | c ip ]; [ discriminate | ].
    cbn [allDigits] in Hip. destruct (digitOf c) as [ z | ] eqn:Hd; [ | discriminate ].
    exists c, (ip ++ r), z. split; [ reflexivity | exact Hd ]. }
  assert (Hipne : isEmpty ip = false) by (destruct ip; [ discriminate | reflexivity ]).
  rewrite decimalChars_app, (allDigits_decimalChars ip Hip).
  destruct (afterPoint r) as [ fp | ] eqn:Hr.
  - apply andb_true_iff in H as [_ Hfp].
    pose proof (afterPoint_split r fp Hr) as Hsplit. subst r.
    cbn [decimalChars andb].
    change (decimalChar ".") with true. rewrite (allDigits_decimalChars fp Hfp).
    rewrite (takeDigits_allDigits fp Hfp), Hipne. cbn [andb readExponent].
    repeat split; eauto.
  - destruct r; [ | discriminate ]. rewrite Hipne. cbn [readExponent].
    repeat split; eauto.
Qed.

Lemma trimEnd_cons (c : ascii) (s : string) :
  isWhiteSpace c = false -> trimEnd s = s -> trimEnd (String c s) = String c s.
Proof.
  intros Hc Hs. cbn [trimEnd]. rewrite Hs.
  destruct s; [ rewrite Hc | ]; reflexivity.
Qed.

Lemma trimEnd_decimalChars (s : string) :
  decimalChars s = true -> trimEnd s = s.
Proof.
  induction s as [ | c s IH ]; [ reflexivity | ]. cbn [decimalChars].
  intros H. apply andb_true_iff in H as [Hc Hs].
  apply trimEnd_cons; [ exact (decimalChar_not_white c Hc) | exact (IH Hs) ].
Qed.

Lemma normalize_finite (d : nat) :
  forall m, exists m' d', normalize m d = Fin m' d'.
Proof.
  induction d as [ | d IH ]; intros m; cbn [normalize]; [ eauto | ].
  destruct (m mod 10 =? 0)%Z; [ apply IH | eauto ].
Qed.

(** Rounding to binary64 gives a number, finite or infinite. *)
Lemma nearest64_number (p q : Z) : nearest64 p q <> NaN.
Proof.
  unfold nearest64. destruct (p =? 0)%Z; [ discriminate | ]. cbv zeta.
  destruct (0 <=? Z.max (log2Ratio p q - 52) (-1074))%Z.
  - destruct (2 ^ 1024 <=? _)%Z; discriminate.
  - match goal with
    | |- normalize ?m ?d <> NaN => destruct (normalize_finite d m) as (m' & d' & ->)
    end.
    discriminate.
Qed.

Lemma signed_number (negative : bool) (n : jsnum) : n <> NaN -> signed negative n <> NaN.
Proof. destruct negative, n; cbn; congruence. Qed.

Lemma decimalToNumber_number (m e : Z) : decimalToNumber m e <> NaN.
Proof.
  unfold decimalToNumber.
  destruct (m =? 0)%Z; [ discriminate | ].
  destruct (309 <=? e)%Z; [ apply signed_number; discriminate | ].
  destruct ((e <? 0)%Z && (Z.log2 (Z.abs m) + 1 + 3 * e <=? -1075)%Z)%bool;
    [ discriminate | ].
  destruct (0 <=? e)%Z; apply signed_number, nearest64_number.
Qed.

(** The signed literal path of the conversion, for a text that begins
    with a digit. *)
Lemma unsigned_number (sg : Z) (u : string) :
  isUnsignedDecimal u = true ->
  (if String.eqb u "Infinity" then Inf (sg <? 0)%Z
   else match readUnsignedDecimal u with
        | Some (m, e) => decimalToNumber (sg * m) e
        | None => NaN
        end) <> NaN.
Proof.
  intros Hu.
  destruct (isUnsignedDecimal_read u Hu) as (_ & (c & u' & z & -> & Hd) & (m & e & ->)).
  assert (Hc : decimalChar c = true) by (unfold decimalChar; rewrite Hd; reflexivity).
  cbn [String.eqb]. rewrite (decimalChar_other c "I" Hc eq_refl).
  apply decimalToNumber_number.
Qed.

(** The text of an exact decimal converts to a number: the conversion
    does not give [NaN]. *)
Lemma decimal_text_number (s : string) :
  isDecimalText s = true -> StringToNumber s <> NaN.
Proof.
  destruct s as [ | c u ]; cbn [isDecimalText]; [ discriminate | ].
  destruct (Ascii.eqb_spec c "-") as [ -> | Hminus ]; intros Hu.
  - destruct (isUnsignedDecimal_read u Hu) as (Hchars & (c & u' & z & -> & Hd) & _).
    assert (Hc : decimalChar c = true) by (unfold decimalChar; rewrite Hd; reflexivity).
    unfold StringToNumber, trim. cbn [trimStart].
    change (isWhiteSpace "-") with false. cbv iota.
    rewrite (trimEnd_cons "-" _ eq_refl (trimEnd_decimalChars _ Hchars)).
    cbn [isEmpty radixPrefix takeSign].
    change (Ascii.eqb "-" "0") with false. change (Ascii.eqb "-" "+") with false.
    change (Ascii.eqb "-" "-") with true. cbv iota.
    apply (unsigned_number (-1)). exact Hu.
  - destruct (isUnsignedDecimal_read _ Hu) as (Hchars & (c' & u' & z & [= <- <-] & Hd) & _).
    assert (Hc : decimalChar c = true) by (unfold decimalChar; rewrite Hd; reflexivity).
    unfold StringToNumber, trim. cbn [trimStart].
    rewrite (decimalChar_not_white c Hc). rewrite (trimEnd_decimalChars _ Hchars).
    cbn [isEmpty takeSign].
    rewrite (decimalChar_other c "+" Hc eq_refl), (decimalChar_other c "-" Hc eq_refl).
    assert (Hradix : radixPrefix (String c u) = None).
    { cbn [radixPrefix]. destruct u as [ | c2 ds ]; [ reflexivity | ].
      cbn [decimalChars] in Hchars.
      apply andb_true_iff in Hchars as [_ Hrest].
      apply andb_true_iff in Hrest as [Hc2 _].
      rewrite (decimalChar_other c2 "x" Hc2 eq_refl), (decimalChar_other c2 "X" Hc2 eq_refl),
        (decimalChar_other c2 "o" Hc2 eq_refl), (decimalChar_other c2 "O" Hc2 eq_refl),
        (decimalChar_other c2 "b" Hc2 eq_refl), (decimalChar_other c2 "B" Hc2 eq_refl).
      destruct (Ascii.eqb c "0"); reflexivity. }
    rewrite Hradix. apply (unsigned_number 1). exact Hu.
Qed.

(** *** Integers below [2^53] *)

Lemma normalize_pow10 (k : nat) :
  forall m, normalize (m * 10 ^ Z.of_nat k) k = Fin m 0.
Proof.
  induction k as [ | k IH ]; intros m.
  - cbn [normalize Z.of_nat]. rewrite Z.pow_0_r, Z.mul_1_r. reflexivity.
  - cbn [normalize]. rewrite Nat2Z.inj_succ, Z.pow_succ_r by lia.
    replace (m * (10 * 10 ^ Z.of_nat k))%Z with ((m * 10 ^ Z.of_nat k) * 10)%Z by ring.
    rewrite Z.mod_mul by lia. cbn [Z.eqb].
    rewrite Z.div_mul by lia. apply IH.
Qed.

Lemma roundHalfEven_one (p : Z) : roundHalfEven p 1 = p.
Proof. unfold roundHalfEven. rewrite Z.div_1_r, Z.mod_1_r. reflexivity. Qed.

(** A positive integer below [2^53] is a binary64 value: rounding leaves
    it as it is. *)
Lemma nearest64_safe (n : Z) :
  (0 < n < 2 ^ 53)%Z -> nearest64 n 1 = Fin n 0.
Proof.
  intros Hn. unfold nearest64.
  destruct (Z.eqb_spec n 0) as [ | _ ]; [ lia | ].
  pose proof (Z.log2_nonneg n) as Hlog0.
  assert (Hlog : (Z.log2 n < 53)%Z) by (apply Z.log2_lt_pow2; lia).
  destruct (Z.log2_spec n) as [Hlow _]; [ lia | ].
  assert (Hratio : log2Ratio n 1 = Z.log2 n).
  { unfold log2Ratio. change (Z.log2 1) with 0%Z. rewrite Z.sub_0_r.
    destruct (Z.leb_spec 0 (Z.log2 n)) as [ _ | ]; [ | lia ].
    destruct (Z.ltb_spec n (1 * 2 ^ Z.log2 n)); [ lia | reflexivity ]. }
  rewrite Hratio. cbv zeta.
  rewrite (Z.max_l (Z.log2 n - 52) (-1074)) by lia.
  destruct (Z.leb_spec 0 (Z.log2 n - 52)) as [ Hpos | Hneg ].
  - assert (He : (Z.log2 n - 52 = 0)%Z) by lia. rewrite He.
    change (1 * 2 ^ 0)%Z with 1%Z. rewrite roundHalfEven_one.
    change (2 ^ 0)%Z with 1%Z. rewrite Z.mul_1_r.
    destruct (Z.leb_spec (2 ^ 1024) n) as [ Hbig | _ ]; [ | reflexivity ].
    assert (2 ^ 53 < 2 ^ 1024)%Z by (apply Z.pow_lt_mono_r; lia). lia.
  - rewrite roundHalfEven_one.
    set (k := (- (Z.log2 n - 52))%Z).
    assert (Hk : (0 <= k)%Z) by (unfold k; lia).
    rewrite <- Z.mul_assoc, <- Z.pow_mul_l. change (2 * 5)%Z with 10%Z.
    rewrite <- (Z2Nat.id k) at 1 by exact Hk.
    apply normalize_pow10.
Qed.

Lemma round64_safe (n : Z) :
  (0 <= n < 2 ^ 53)%Z -> round64 (Fin n 0) = Fin n 0.
Proof.
  intros Hn. unfold round64.
  destruct (Z.ltb_spec n 0) as [ | _ ]; [ lia | ].
  rewrite Z.abs_eq by lia. change (10 ^ Z.of_nat 0)%Z with 1%Z. cbn [signed].
  destruct (Z.eq_dec n 0) as [ -> | Hne ]; [ reflexivity | ].
  apply nearest64_safe. lia.
Qed.

Lemma decimalToNumber_safe (n : Z) :
  (0 <= n < 2 ^ 53)%Z -> decimalToNumber n 0 = Fin n 0.
Proof.
  intros Hn. unfold decimalToNumber.
  destruct (Z.eqb_spec n 0) as [ -> | Hne ]; [ reflexivity | ].
  change (309 <=? 0)%Z with false. change (0 <? 0)%Z with false.
  change (0 <=? 0)%Z with true. cbn [andb].
  destruct (Z.ltb_spec n 0) as [ | _ ]; [ lia | ].
  rewrite Z.abs_eq by lia. change (10 ^ 0)%Z with 1%Z. rewrite Z.mul_1_r. cbn [signed].
  apply nearest64_safe. lia.
Qed.

(** Two integers below [2^53] compare as numbers the way they compare as
    integers. *)
Lemma num_le_safe (a b : Z) :
  (0 <= a < 2 ^ 53)%Z -> (0 <= b < 2 ^ 53)%Z ->
  num_le (Fin a 0) (Fin b 0) = (a <=? b)%Z.
Proof.
  intros Ha Hb. unfold num_le. rewrite !round64_safe by assumption.
  cbn [exact_le Z.of_nat]. rewrite Z.pow_0_r, !Z.mul_1_r. reflexivity.
Qed.

End NumberTheory.

(** ** Properties of the Job repository *)

Module JobTheory.
Import JS Sql Job Spec.

Lemma setProperty_has_key (o : obj) (k : string) (x : jsval) :
  In k (map fst (setProperty o k x)).
Proof.
  induction o as [ | [k' y] o IH ]; cbn [setProperty]; [ left; reflexivity | ].
  destruct (String.eqb_spec k' k) as [ -> | _ ]; [ left; reflexivity | right; exact IH ].
Qed.

(** No filter that carries a [handle] key goes through the builder for
    jobs. *)
Lemma sqlForFilter_handle_rejected (filterValues : obj) (handle : jsval) :
  exists e, sqlForFilter (JObj (setProperty filterValues "handle" handle)) "jobs" = Err e.
Proof.
  destruct (sqlForFilter (JObj (setProperty filterValues "handle" handle)) "jobs")
    as [ [whereClause values] | e ] eqn:Hfilter; [ | eauto ].
  pose proof (SqlTheory.sqlForFilter_ok_recognized _ _ _ _ Hfilter) as Hall.
  rewrite forallb_forall in Hall.
  specialize (Hall "handle" (setProperty_has_key filterValues "handle" handle)).
  discriminate.
Qed.

(** A lookup for one company never reaches the store: the builder rejects
    the [handle] key that [findAll] adds to the filter. *)
Lemma findAll_with_handle (db_query : statement -> result (list jsval))
    (Company_get : jsval -> result jsval)
    (handle : jsval) (joinType : string) (filterValues : obj) :
  ToBoolean handle = true ->
  exists e,
    sqlForFilter (JObj (setProperty filterValues "handle" handle)) "jobs" = Err e
    /\ findAll db_query Company_get handle joinType filterValues = Err e.
Proof.
  intros Hhandle.
  destruct (sqlForFilter_handle_rejected filterValues handle) as [e He].
  exists e. split; [ exact He | ].
  unfold findAll. rewrite Hhandle, He. reflexivity.
Qed.

(** The listing of all jobs, with a filter that matches no row. *)
Lemma findAll_global_no_match (db_query : statement -> result (list jsval))
    (Company_get : jsval -> result jsval)
    (handle : jsval) (joinType whereClause : string) (filterValues : obj)
    (values : list jsval) :
  ToBoolean handle = false ->
  filterValues <> [] ->
  sqlForFilter (JObj filterValues) "jobs" = Ok (whereClause, values) ->
  db_query (SelectCompanyJobs joinType whereClause values) = Ok [] ->
  findAll db_query Company_get handle joinType filterValues
  = Err (NotFoundError "No jobs were found due to filter settings").
Proof.
  intros Hhandle Hne Hfilter Hrows.
  unfold findAll. rewrite Hhandle, Hfilter. cbn [bind]. rewrite Hrows. cbn [bind].
  destruct filterValues; [ congruence | reflexivity ].
Qed.

Lemma decimal_text_truthy (s : string) :
  isDecimalText s = true -> ToBoolean (JStr s) = true.
Proof. destruct s; [ discriminate | reflexivity ]. Qed.

Lemma numericForm_shown (stored : jsval) :
  stored = JNull \/ (exists s, isDecimalText s = true /\ stored = JStr s) ->
  shownAs stored (numericForm stored).
Proof.
  intros [ -> | (s & Hs & ->) ]; [ reflexivity | ].
  unfold numericForm, shownAs. rewrite (decimal_text_truthy s Hs).
  split; [ reflexivity | exact (NumberTheory.decimal_text_number s Hs) ].
Qed.

Lemma stored_row_not_nullish (row : jsval) :
  prop row "equity" = JNull \/ (exists s, isDecimalText s = true /\ prop row "equity" = JStr s) ->
  isNullish row = false.
Proof.
  destruct row; try reflexivity; cbn; intros [ H | (s & _ & H) ]; discriminate.
Qed.

(** *** Properties stated by the specification *)

(** C2 (the code departs from it): a lookup for the company [c1] with
    the filter [{title: "x"}] does not answer with the company and an empty
    list of jobs: [findAll] adds the key [handle] to the filter, the builder
    does not recognize it for jobs and throws its validation error, whatever
    the store and the companies hold. *)
Theorem findAll_company_lookup_rejected
    (db_query : statement -> result (list jsval))
    (Company_get : jsval -> result jsval) :
  findAll db_query Company_get (JStr "c1") "LEFT " [("title", JStr "x")]
  = Err (BadRequestError "Filtering 'jobs' by 'handle' is not possible.").
Proof. reflexivity. Qed.

(** C9: when the store returns a job row whose equity is null or the
    text of an exact decimal, [create], [get] and [update] return that
    equity as null, respectively as a number, never [NaN]: the binary64
    value the text converts to.  The text [0.02] is returned as the number
    that the literal [0.02] denotes and that prints as [0.02]. *)
Theorem equity_normalized_on_read
    (db_query : statement -> result (list jsval))
    (row : jsval) (rest : list jsval) :
  prop row "equity" = JNull
  \/ (exists s, isDecimalText s = true /\ prop row "equity" = JStr s) ->
  (forall data,
      isNullish data = false ->
      db_query (InsertJob [prop data "companyHandle"; prop data "title";
                           prop data "salary"; prop data "equity"])
      = Ok (row :: rest) ->
      exists out, create db_query data = Ok out
                  /\ shownAs (prop row "equity") (prop out "equity"))
  /\ (forall id,
        db_query (SelectJob [id]) = Ok (row :: rest) ->
        exists out, Job.get db_query id = Ok out
                    /\ shownAs (prop row "equity") (prop (prop out "job") "equity"))
  /\ (forall id data setCols values,
        sqlForPartialUpdate data (JObj [("companyHandle", JStr "company_handle")])
        = Ok (setCols, values) ->
        db_query (UpdateJob setCols ("$" ++ string_of_nat (List.length values + 1))
                            (values ++ [id])%list)
        = Ok (row :: rest) ->
        exists out, update db_query id data = Ok out
                    /\ shownAs (prop row "equity") (prop out "equity"))
  /\ numericForm (JStr "0.02") = JNum (round64 (Fin 2 2))
  /\ ToString (numericForm (JStr "0.02")) = "0.02".
Proof.
  intros Hstored.
  pose proof (numericForm_shown _ Hstored) as Hshown.
  pose proof (stored_row_not_nullish _ Hstored) as Hrow.
  split; [ | split; [ | split; [ | split; vm_compute; reflexivity ] ] ].
  - intros data Hdata Hinsert. unfold create, destructure, getProp.
    rewrite Hdata. cbn [bind]. rewrite Hinsert. cbn [bind first nth].
    rewrite Hrow. cbn [bind]. eexists. split; [ reflexivity | exact Hshown ].
  - intros id Hselect. unfold Job.get. rewrite Hselect.
    cbn [bind List.length Nat.eqb first nth].
    eexists. split; [ reflexivity | exact Hshown ].
  - intros id data setCols values Hset Hupdate. unfold update, getProp.
    rewrite Hset. cbn [bind]. rewrite Hupdate. cbn [bind first nth].
    rewrite Hrow. cbn [bind]. eexists. split; [ reflexivity | exact Hshown ].
Qed.

(** Creating a job whose equity the store holds as the text [0.02]. *)
Lemma equity_normalized_on_read_witness :
  exists out,
    create oneJobStore
      (JObj [ ("companyHandle", JStr "e1"); ("title", JStr "new");
              ("salary", JNum (num_of_Z 75000)); ("equity", JStr "0.02") ]) = Ok out
    /\ shownAs (JStr "0.02") (prop out "equity").
Proof.
  refine (proj1 (equity_normalized_on_read oneJobStore storedJob [] _)
                (JObj [ ("companyHandle", JStr "e1"); ("title", JStr "new");
                        ("salary", JNum (num_of_Z 75000)); ("equity", JStr "0.02") ])
                eq_refl eq_refl).
  right. exists "0.02". split; reflexivity.
Defined.

End JobTheory.

(** ** Text and number conversions as the builders use them *)

Module ConversionTheory.
Import JS Spec Notions.

Lemma trimStart_headNotWhite (s : string) : headNotWhite (trimStart s) = true.
Proof.
  induction s as [ | c s IH ]; [ reflexivity | ]. cbn [trimStart].
  destruct (isWhiteSpace c) eqn:Hc; [ exact IH | ]. cbn [headNotWhite]. now rewrite Hc.
Qed.

Lemma trimStart_fixed (s : string) : headNotWhite s = true -> trimStart s = s.
Proof.
  destruct s as [ | c s ]; [ reflexivity | ]. cbn [headNotWhite trimStart].
  destruct (isWhiteSpace c); [ discriminate | reflexivity ].
Qed.

Lemma trimEnd_headNotWhite (s : string) :
  headNotWhite s = true -> headNotWhite (trimEnd s) = true.
Proof.
  destruct s as [ | c s ]; [ reflexivity | ]. cbn [headNotWhite trimEnd].
  intros Hc. destruct (trimEnd s); [ | exact Hc ].
  destruct (isWhiteSpace c) eqn:Hw; [ discriminate | ].
  cbn [headNotWhite]. now rewrite Hw.
Qed.

Lemma trimEnd_idempotent (s : string) : trimEnd (trimEnd s) = trimEnd s.
Proof.
  induction s as [ | c s IH ]; [ reflexivity | ]. cbn [trimEnd].
  destruct (trimEnd s) as [ | c' t ] eqn:Ht.
  - destruct (isWhiteSpace c) eqn:Hc; [ reflexivity | ]. cbn [trimEnd]. now rewrite Hc.
  - cbn [trimEnd] in IH |- *.
    change (trimEnd (String c (String c' t)))
      with (match trimEnd (String c' t) with
            | EmptyString => if isWhiteSpace c then EmptyString else String c EmptyString
            | t' => String c t'
            end).
    change (trimEnd (String c' t)) with
      (match trimEnd t with
       | EmptyString => if isWhiteSpace c' then EmptyString else String c' EmptyString
       | t' => String c' t'
       end).
    rewrite IH. reflexivity.
Qed.

(** Trimming twice is trimming once. *)
Lemma trim_idempotent (s : string) : trim (trim s) = trim s.
Proof.
  unfold trim.
  rewrite (trimStart_fixed (trimEnd (trimStart s))).
  - apply trimEnd_idempotent.
  - apply trimEnd_headNotWhite, trimStart_headNotWhite.
Qed.

Lemma trim_allWhite (s : string) : allWhite s = true -> trim s = EmptyString.
Proof.
  unfold trim. induction s as [ | c s IH ]; [ reflexivity | ].
  cbn [allWhite trimStart]. intros H. apply andb_true_iff in H as [-> Hs]. exact (IH Hs).
Qed.

(** The unary plus sees the text as it is after trimming. *)
Lemma StringToNumber_trim (s : string) : StringToNumber (trim s) = StringToNumber s.
Proof. unfold StringToNumber. rewrite trim_idempotent. reflexivity. Qed.

Lemma readDigits_uint (u : uint) :
  forall a : nat,
    readDigits 10 (Z.of_nat a) (NilEmpty.string_of_uint u)
    = Some (Z.of_nat (Nat.of_uint_acc u a)).
Proof.
  induction u; intros a; cbn [NilEmpty.string_of_uint readDigits Nat.of_uint_acc];
    [ reflexivity | .. ];
    match goal with
    | |- context [hexDigitOf ?c] =>
        let v := eval vm_compute in (hexDigitOf c) in
        change (hexDigitOf c) with v
    end;
    cbv iota;
    match goal with
    | |- context [(?v <? 10)%Z] => change (v <? 10)%Z with true
    end;
    cbv iota; rewrite <- IHu; f_equal; rewrite Nat.tail_mul_spec; lia.
Qed.

Lemma allDigits_uint (u : uint) : allDigits (NilEmpty.string_of_uint u) = true.
Proof.
  induction u; cbn [NilEmpty.string_of_uint allDigits]; [ reflexivity | .. ];
    match goal with
    | |- context [digitOf ?c] =>
        let v := eval vm_compute in (digitOf c) in
        change (digitOf c) with v
    end; exact IHu.
Qed.

(** A text of digits converts to the number of the integer its digits
    spell. *)
Lemma StringToNumber_digits (ds : string) :
  allDigits ds = true -> isEmpty ds = false ->
  StringToNumber ds = decimalToNumber (decValue ds) 0.
Proof.
  intros Hds Hne.
  pose proof (NumberTheory.allDigits_decimalChars ds Hds) as Hchars.
  destruct ds as [ | c u ]; [ discriminate | ].
  assert (Hc : decimalChar c = true).
  { cbn [decimalChars] in Hchars. apply andb_true_iff in Hchars. tauto. }
  unfold StringToNumber, trim. cbn [trimStart].
  rewrite (NumberTheory.decimalChar_not_white c Hc).
  rewrite (NumberTheory.trimEnd_decimalChars _ Hchars).
  cbn [isEmpty takeSign].
  rewrite (NumberTheory.decimalChar_other c "+" Hc eq_refl),
    (NumberTheory.decimalChar_other c "-" Hc eq_refl).
  assert (Hradix : radixPrefix (String c u) = None).
  { cbn [radixPrefix]. destruct u as [ | c2 ds ]; [ reflexivity | ].
    cbn [decimalChars] in Hchars.
    apply andb_true_iff in Hchars as [_ Hrest].
    apply andb_true_iff in Hrest as [Hc2 _].
    rewrite (NumberTheory.decimalChar_other c2 "x" Hc2 eq_refl),
      (NumberTheory.decimalChar_other c2 "X" Hc2 eq_refl),
      (NumberTheory.decimalChar_other c2 "o" Hc2 eq_refl),
      (NumberTheory.decimalChar_other c2 "O" Hc2 eq_refl),
      (NumberTheory.decimalChar_other c2 "b" Hc2 eq_refl),
      (NumberTheory.decimalChar_other c2 "B" Hc2 eq_refl).
    destruct (Ascii.eqb c "0"); reflexivity. }
  rewrite Hradix. cbn [String.eqb].
  rewrite (NumberTheory.decimalChar_other c "I" Hc eq_refl).
  unfold readUnsignedDecimal.
  rewrite (NumberTheory.takeDigits_allDigits _ Hds).
  cbn [afterPoint isEmpty readExponent]. rewrite Z.mul_1_l. reflexivity.
Qed.

Lemma decValue_numeral (n : nat) : decValue (string_of_nat n) = Z.of_nat n.
Proof.
  unfold decValue, string_of_nat.
  pose proof (readDigits_uint (Nat.to_uint n) 0) as Hread.
  change (Z.of_nat 0) with 0%Z in Hread. rewrite Hread.
  change (Nat.of_uint_acc (Nat.to_uint n) 0) with (Nat.of_uint (Nat.to_uint n)).
  rewrite Unsigned.of_to. reflexivity.
Qed.

(** The decimal numeral of a natural number below [2^53] converts back to
    it; beyond, the conversion rounds. *)
Lemma StringToNumber_numeral (n : nat) :
  (Z.of_nat n < 2 ^ 53)%Z ->
  StringToNumber (string_of_nat n) = Fin (Z.of_nat n) 0.
Proof.
  intros Hn. rewrite StringToNumber_digits.
  - rewrite decValue_numeral. apply NumberTheory.decimalToNumber_safe. lia.
  - apply allDigits_uint.
  - apply SqlTheory.string_of_nat_not_empty.
Qed.

End ConversionTheory.

(** ** More on the clause builders *)

Module BuilderTheory.
Import JS Sql Spec Notions.

Lemma sqlForFilter_object (filter : obj) (table : string) :
  filter <> [] ->
  sqlForFilter (JObj filter) table
  = if crossFieldRejected (JObj filter)
    then Err (BadRequestError (minMaxMessage (JObj filter)))
    else '(cols, valuesOut) <- filterColumns (JObj filter) table (map fst filter) [] ;;
         Ok ("WHERE " ++ join " AND " cols, valuesOut).
Proof.
  intros Hne. unfold sqlForFilter, Object_keys, crossFieldRejected.
  cbn [ToBoolean isNullish ownProperties bind].
  destruct filter; [ congruence | reflexivity ].
Qed.

Lemma recognized_entity (table colName : string) :
  recognized table colName = true -> entity table = true.
Proof.
  unfold recognized, fieldOf, entity.
  destruct (String.eqb table "companies"); [ reflexivity | ].
  destruct (String.eqb table "jobs"); [ reflexivity | discriminate ].
Qed.

(** A list of recognized fields whose values are strings goes through,
    and binds the values of its fields in their order. *)
Lemma filterColumns_valid (dataForFilter : jsval) (table : string) :
  forall (keys : list string) (valuesOut : list jsval),
    (forall k, In k keys ->
       recognized table k = true /\ exists s, prop dataForFilter k = JStr s) ->
    exists cols,
      filterColumns dataForFilter table keys valuesOut
      = Ok (cols, (valuesOut
                   ++ flat_map (fun k => boundOf table k (prop dataForFilter k)) keys)%list).
Proof.
  induction keys as [ | k keys IH ]; intros valuesOut Hkeys.
  - exists []. cbn. now rewrite app_nil_r.
  - destruct (Hkeys k (or_introl eq_refl)) as (Hrec & s & Hs).
    pose proof (recognized_entity _ _ Hrec) as Hent.
    cbn [filterColumns flat_map]. rewrite SqlTheory.filterColumn_fragment.
    unfold fragment, boundOf. rewrite Hent. unfold recognized in Hrec.
    destruct (fieldOf table k) as [ [[column op] kind] | ]; [ | discriminate ].
    rewrite Hs.
    destruct kind; cbn [bind];
      match goal with
      | |- context [filterColumns _ _ keys ?v] =>
          destruct (IH v (fun k' Hin => Hkeys k' (or_intror Hin))) as [cols ->]
      end;
      cbn [bind]; eexists; rewrite <- ?app_assoc; reflexivity.
Qed.

Lemma lookup_in (filter : list (string * string)) (k s : string) :
  NoDup (map fst filter) -> In (k, s) filter -> lookup filter k = Some s.
Proof.
  induction filter as [ | [k' s'] filter IH ]; cbn [map fst lookup In];
    [ contradiction | ].
  intros Hnd [ [= -> ->] | Hin ].
  - now rewrite String.eqb_refl.
  - inversion Hnd as [ | ? ? Hnotin Hnd' ]; subst.
    destruct (String.eqb_spec k' k) as [ -> | _ ].
    + exfalso. apply Hnotin. apply (in_map fst) in Hin. exact Hin.
    + exact (IH Hnd' Hin).
Qed.

Lemma prop_ofStrings_in (filter : list (string * string)) (k s : string) :
  NoDup (map fst filter) -> In (k, s) filter -> prop (ofStrings filter) k = JStr s.
Proof.
  intros Hnd Hin. unfold prop, ofStrings. cbn [ownProperties].
  rewrite SqlTheory.lookup_ofStrings, (lookup_in _ _ _ Hnd Hin). reflexivity.
Qed.

Lemma boundOf_string (table k s : string) :
  boundOf table k (JStr s) = boundValue table (k, s).
Proof.
  unfold boundOf, boundValue. cbn [fst snd].
  destruct (fieldOf table k) as [ [[column op] [ | | ]] | ]; reflexivity.
Qed.

Lemma flat_map_bound (filter : list (string * string)) (table : string) :
  NoDup (map fst filter) ->
  forall part, incl part filter ->
    flat_map (fun k => boundOf table k (prop (ofStrings filter) k)) (map fst part)
    = flat_map (boundValue table) part.
Proof.
  intros Hnd part.
  induction part as [ | [k s] part IH ]; intros Hincl; [ reflexivity | ].
  cbn [map fst flat_map].
  rewrite (prop_ofStrings_in filter k s Hnd (Hincl _ (or_introl eq_refl))).
  rewrite boundOf_string, IH; [ reflexivity | ].
  intros x Hx. apply Hincl. right. exact Hx.
Qed.

(** *** Properties read off the source *)

(** X1: a filter of strings whose fields are all recognized for the
    entity, each given once, and that the cross-field test lets through, is
    built without error; the values are those of the fields in their order,
    a text trimmed and put between percent signs, an integer field as the
    number of its text, and nothing for [hasEquity]. *)
Theorem sqlForFilter_valid (filter : list (string * string)) (table : string) :
  filter <> [] ->
  NoDup (map fst filter) ->
  forallb (recognized table) (map fst filter) = true ->
  crossFieldRejected (ofStrings filter) = false ->
  exists whereClause,
    sqlForFilter (ofStrings filter) table
    = Ok (whereClause, flat_map (boundValue table) filter).
Proof.
  intros Hne Hnd Hrec Hcross.
  unfold ofStrings. rewrite sqlForFilter_object by (destruct filter; [ congruence | discriminate ]).
  fold (ofStrings filter). rewrite Hcross, map_map. cbn [fst].
  change (map (fun x : string * string => fst x) filter) with (map fst filter).
  destruct (filterColumns_valid (ofStrings filter) table (map fst filter) []) as [cols Hcols].
  - intros k Hin. split.
    + rewrite forallb_forall in Hrec. exact (Hrec k Hin).
    + apply SqlTheory.prop_ofStrings. exact Hin.
  - rewrite Hcols. cbn [bind app]. eexists.
    rewrite (flat_map_bound filter table Hnd filter (incl_refl _)). reflexivity.
Qed.

(** A jobs filter with all three fields. *)
Lemma sqlForFilter_valid_witness :
  exists whereClause,
    sqlForFilter
      (ofStrings [("title", " dev "); ("hasEquity", "true"); ("minSalary", "100")]) "jobs"
    = Ok (whereClause, [JStr "%dev%"; JNum (num_of_Z 100)]).
Proof.
  refine (sqlForFilter_valid
            [("title", " dev "); ("hasEquity", "true"); ("minSalary", "100")] "jobs"
            _ _ eq_refl eq_refl).
  - discriminate.
  - repeat constructor; cbn; intuition discriminate.
Defined.

(** X2: on companies and on jobs, a filter made of strings either goes
    through or is refused with a [BadRequestError]; the builder throws
    nothing else on such a filter. *)
Theorem sqlForFilter_strings_outcome (filter : list (string * string)) :
  let outcome table :=
    match sqlForFilter (ofStrings filter) table with
    | Ok _ => True
    | Err (BadRequestError _) => True
    | Err _ => False
    end in
  outcome "companies" /\ outcome "jobs".
Proof.
  assert (Hall : forall table, entity table = true ->
            match sqlForFilter (ofStrings filter) table with
            | Ok _ => True
            | Err (BadRequestError _) => True
            | Err _ => False
            end).
  { intros table Hent.
    destruct filter as [ | p filter ]; [ exact I | ].
    unfold ofStrings. rewrite sqlForFilter_object by discriminate.
    fold (ofStrings (p :: filter)).
    destruct (crossFieldRejected (ofStrings (p :: filter))); [ exact I | ].
    rewrite map_map.
    change (map (fun x : string * string => fst (fst x, JStr (snd x))) (p :: filter))
      with (map fst (p :: filter)).
    destruct (find (fun c => negb (recognized table c)) (map fst (p :: filter)))
      as [ k | ] eqn:Hfind.
    - rewrite (SqlTheory.filterColumns_first_unrecognized
                 (ofStrings (p :: filter)) table k Hent (map fst (p :: filter)) [] Hfind).
      rewrite (SqlTheory.trimErrorBefore_ofStrings (p :: filter) table)
        by (intros c Hin; exact Hin).
      exact I.
    - destruct (filterColumns_valid (ofStrings (p :: filter)) table
                  (map fst (p :: filter)) []) as [cols ->]; [ | exact I ].
      intros k Hin. split.
      + pose proof (find_none _ _ Hfind k Hin) as Hk.
        now apply negb_false_iff in Hk.
      + apply SqlTheory.prop_ofStrings. exact Hin. }
  split; apply Hall; reflexivity.
Qed.

Lemma num_le_numerals (a b : nat) :
  (Z.of_nat a < 2 ^ 53)%Z -> (Z.of_nat b < 2 ^ 53)%Z ->
  num_le (Fin (Z.of_nat b) 0) (Fin (Z.of_nat a) 0) = (b <=? a)%nat.
Proof.
  intros Ha Hb. rewrite NumberTheory.num_le_safe by lia.
  destruct (Nat.leb_spec b a); [ apply Z.leb_le | apply Z.leb_gt ]; lia.
Qed.

(** X3: for bounds written as decimal numerals of natural numbers below
    [2^53], each of which is a binary64 value, the companies filter
    [{minEmployees, maxEmployees}] is refused exactly when the maximum is
    less than or equal to the minimum, numbers compared as numbers;
    otherwise the two numbers themselves are bound. *)
Theorem sqlForFilter_natural_bounds (a b : nat) :
  (Z.of_nat a < 2 ^ 53)%Z -> (Z.of_nat b < 2 ^ 53)%Z ->
  sqlForFilter
    (ofStrings [("minEmployees", string_of_nat a); ("maxEmployees", string_of_nat b)])
    "companies"
  = if (b <=? a)%nat
    then Err (BadRequestError
                ("Filter is incorrect: 'minEmployees', " ++ string_of_nat a
                 ++ ", is NOT less than 'maxEmployees', " ++ string_of_nat b ++ "."))
    else Ok ("WHERE num_employees >= $1 AND num_employees <= $2",
             [JNum (num_of_Z (Z.of_nat a)); JNum (num_of_Z (Z.of_nat b))]).
Proof.
  intros Ha Hb. unfold ofStrings. rewrite sqlForFilter_object by discriminate.
  assert (Hcross : crossFieldRejected
            (JObj (map (fun kv => (fst kv, JStr (snd kv)))
                     [("minEmployees", string_of_nat a);
                      ("maxEmployees", string_of_nat b)]))
          = (b <=? a)%nat).
  { change (crossFieldRejected _)
      with (num_le (StringToNumber (string_of_nat b)) (StringToNumber (string_of_nat a))).
    rewrite !ConversionTheory.StringToNumber_numeral by assumption.
    apply num_le_numerals; assumption. }
  rewrite Hcross. destruct (b <=? a)%nat; [ reflexivity | ].
  change (Ok ("WHERE num_employees >= $1 AND num_employees <= $2",
              [JNum (StringToNumber (string_of_nat a));
               JNum (StringToNumber (string_of_nat b))])
          = Ok ("WHERE num_employees >= $1 AND num_employees <= $2",
                [JNum (num_of_Z (Z.of_nat a)); JNum (num_of_Z (Z.of_nat b))])).
  rewrite !ConversionTheory.StringToNumber_numeral by assumption. reflexivity.
Qed.

(** Ten employees at least and two hundred at most. *)
Lemma sqlForFilter_natural_bounds_witness :
  sqlForFilter (ofStrings [("minEmployees", "10"); ("maxEmployees", "200")]) "companies"
  = Ok ("WHERE num_employees >= $1 AND num_employees <= $2",
        [JNum (num_of_Z 10); JNum (num_of_Z 200)]).
Proof.
  refine (sqlForFilter_natural_bounds 10 200 _ _); reflexivity.
Defined.

(** Beyond [2^53] the bounds are compared after rounding: [2^53 + 1]
    converts to [2^53], so that the pair below is refused although the
    maximum is written greater than the minimum. *)
Example sqlForFilter_rounded_bounds :
  sqlForFilter
    (ofStrings [("minEmployees", "9007199254740992");
                ("maxEmployees", "9007199254740993")]) "companies"
  = Err (BadRequestError
           ("Filter is incorrect: 'minEmployees', 9007199254740992, "
            ++ "is NOT less than 'maxEmployees', 9007199254740993.")).
Proof. vm_compute. reflexivity. Qed.

Lemma num_le_NaN (x y : jsnum) : x = NaN \/ y = NaN -> num_le x y = false.
Proof.
  unfold num_le. intros [ -> | -> ]; [ reflexivity | ].
  cbn [round64]. destruct (round64 x) as [ | [ | ] | ]; reflexivity.
Qed.

(** X4: the builder does not check that a bound is a number: when the
    text of [minEmployees] or of [maxEmployees] is not a numeric literal,
    the cross-field test lets the filter through and the values are bound
    as they convert, [NaN] included. *)
Theorem sqlForFilter_bounds_not_numbers (low high : string) :
  StringToNumber low = NaN \/ StringToNumber high = NaN ->
  sqlForFilter (ofStrings [("minEmployees", low); ("maxEmployees", high)]) "companies"
  = Ok ("WHERE num_employees >= $1 AND num_employees <= $2",
        [JNum (StringToNumber low); JNum (StringToNumber high)]).
Proof.
  intros Hnan. unfold ofStrings. rewrite sqlForFilter_object by discriminate.
  assert (Hcross : crossFieldRejected
            (JObj (map (fun kv => (fst kv, JStr (snd kv)))
                     [("minEmployees", low); ("maxEmployees", high)])) = false).
  { change (crossFieldRejected _) with (num_le (StringToNumber high) (StringToNumber low)).
    apply num_le_NaN. tauto. }
  rewrite Hcross. reflexivity.
Qed.

(** A minimum that is a word, and a maximum beyond the binary64 range. *)
Lemma sqlForFilter_bounds_not_numbers_witness :
  sqlForFilter (ofStrings [("minEmployees", "many"); ("maxEmployees", "1e400")])
               "companies"
  = Ok ("WHERE num_employees >= $1 AND num_employees <= $2",
        [JNum NaN; JNum (Inf false)]).
Proof.
  apply (sqlForFilter_bounds_not_numbers "many" "1e400"). left. reflexivity.
Defined.

Lemma fieldOf_bounds_not_text (table colName : string) :
  colName = "minEmployees" \/ colName = "maxEmployees" ->
  match fieldOf table colName with
  | Some (_, _, Text) => False
  | _ => True
  end.
Proof.
  intros [ -> | -> ]; unfold fieldOf;
    destruct (String.eqb table "companies"); cbn; try exact I;
    destruct (String.eqb table "jobs"); exact I.
Qed.

Lemma lookup_trimTexts (table : string) (filter : list (string * string)) (k : string) :
  lookup (trimTexts table filter) k
  = option_map (fun s => match fieldOf table k with
                         | Some (_, _, Text) => trim s
                         | _ => s
                         end) (lookup filter k).
Proof.
  induction filter as [ | [k' s'] filter IH ]; [ reflexivity | ].
  cbn [trimTexts map fst snd]. fold (trimTexts table filter).
  destruct (fieldOf table k') as [ [[column op] [ | | ]] | ] eqn:Hf; cbn [lookup fst snd];
    destruct (String.eqb_spec k' k) as [ <- | _ ]; try exact IH;
    rewrite Hf; reflexivity.
Qed.

Lemma prop_trimTexts (table : string) (filter : list (string * string)) (k : string) :
  prop (ofStrings (trimTexts table filter)) k
  = match fieldOf table k, prop (ofStrings filter) k with
    | Some (_, _, Text), JStr s => JStr (trim s)
    | _, v => v
    end.
Proof.
  unfold prop, ofStrings. cbn [ownProperties].
  rewrite !SqlTheory.lookup_ofStrings, lookup_trimTexts.
  destruct (lookup filter k) as [ s | ]; cbn [option_map];
    destruct (fieldOf table k) as [ [[column op] [ | | ]] | ]; reflexivity.
Qed.

Lemma hasOwnProperty_trimTexts (table : string) (filter : list (string * string))
    (k : string) :
  hasOwnProperty (ofStrings (trimTexts table filter)) k
  = hasOwnProperty (ofStrings filter) k.
Proof.
  unfold hasOwnProperty, ofStrings. cbn [ownProperties].
  rewrite !SqlTheory.lookup_ofStrings, lookup_trimTexts.
  destruct (lookup filter k); reflexivity.
Qed.

Lemma prop_trimTexts_bound (table : string) (filter : list (string * string))
    (k : string) :
  k = "minEmployees" \/ k = "maxEmployees" ->
  prop (ofStrings (trimTexts table filter)) k = prop (ofStrings filter) k.
Proof.
  intros Hk. rewrite prop_trimTexts.
  pose proof (fieldOf_bounds_not_text table k Hk) as Hf.
  destruct (fieldOf table k) as [ [[column op] [ | | ]] | ];
    [ contradiction | reflexivity .. ].
Qed.

Lemma fragment_trimTexts (table : string) (filter : list (string * string))
    (k : string) (valuesOut : list jsval) :
  fragment (ofStrings (trimTexts table filter)) table k valuesOut
  = fragment (ofStrings filter) table k valuesOut.
Proof.
  unfold fragment. rewrite prop_trimTexts.
  destruct (entity table); [ | reflexivity ].
  destruct (fieldOf table k) as [ [[column op] [ | | ]] | ]; try reflexivity.
  destruct (prop (ofStrings filter) k); try reflexivity.
  rewrite ConversionTheory.trim_idempotent. reflexivity.
Qed.

Lemma filterColumns_trimTexts (table : string) (filter : list (string * string)) :
  forall (keys : list string) (valuesOut : list jsval),
    filterColumns (ofStrings (trimTexts table filter)) table keys valuesOut
    = filterColumns (ofStrings filter) table keys valuesOut.
Proof.
  induction keys as [ | k keys IH ]; intros valuesOut; [ reflexivity | ].
  cbn [filterColumns]. rewrite !SqlTheory.filterColumn_fragment, fragment_trimTexts.
  destruct (fragment (ofStrings filter) table k valuesOut) as [ [clause v1] | ];
    [ | reflexivity ].
  cbn [bind]. rewrite IH. reflexivity.
Qed.

Lemma trimTexts_keys (table : string) (filter : list (string * string)) :
  map fst (trimTexts table filter) = map fst filter.
Proof.
  unfold trimTexts. rewrite map_map. apply map_ext. intros [k s]. cbn [fst].
  destruct (fieldOf table k) as [ [[column op] [ | | ]] | ]; reflexivity.
Qed.

Lemma sqlForFilter_ofStrings (filter : list (string * string)) (table : string) :
  filter <> [] ->
  sqlForFilter (ofStrings filter) table
  = if crossFieldRejected (ofStrings filter)
    then Err (BadRequestError (minMaxMessage (ofStrings filter)))
    else '(cols, valuesOut) <-
           filterColumns (ofStrings filter) table (map fst filter) [] ;;
         Ok ("WHERE " ++ join " AND " cols, valuesOut).
Proof.
  intros Hne. unfold ofStrings.
  rewrite sqlForFilter_object by (destruct filter; [ congruence | discriminate ]).
  rewrite map_map. reflexivity.
Qed.

(** X5: white space around the value of a text field never changes what
    the builder answers: trimming the text fields of a filter beforehand
    gives the same clause and values, or the same error. *)
Theorem sqlForFilter_trimTexts (filter : list (string * string)) (table : string) :
  sqlForFilter (ofStrings (trimTexts table filter)) table
  = sqlForFilter (ofStrings filter) table.
Proof.
  destruct filter as [ | p filter ]; [ reflexivity | ].
  rewrite (sqlForFilter_ofStrings (trimTexts table (p :: filter)))
    by (intros Hnil; apply (f_equal (map fst)) in Hnil;
        rewrite trimTexts_keys in Hnil; discriminate).
  rewrite (sqlForFilter_ofStrings (p :: filter)) by discriminate.
  unfold crossFieldRejected, minMaxMessage.
  rewrite !hasOwnProperty_trimTexts.
  rewrite !(prop_trimTexts_bound table (p :: filter) "minEmployees" (or_introl eq_refl)).
  rewrite !(prop_trimTexts_bound table (p :: filter) "maxEmployees" (or_intror eq_refl)).
  rewrite trimTexts_keys, filterColumns_trimTexts.
  reflexivity.
Qed.

(** X6: a text field whose value is only white space (or empty) binds
    the pattern of two percent signs, which every text matches. *)
Theorem sqlForFilter_blank_text (s : string) :
  allWhite s = true ->
  sqlForFilter (ofStrings [("nameLike", s)]) "companies"
  = Ok ("WHERE name ILIKE $1", [JStr "%%"])
  /\ sqlForFilter (ofStrings [("title", s)]) "jobs"
     = Ok ("WHERE title ILIKE $1", [JStr "%%"]).
Proof.
  intros Hs.
  assert (Hname : sqlForFilter (ofStrings [("nameLike", s)]) "companies"
                  = Ok ("WHERE name ILIKE $1", [JStr ("%" ++ trim s ++ "%")]))
    by reflexivity.
  assert (Htitle : sqlForFilter (ofStrings [("title", s)]) "jobs"
                   = Ok ("WHERE title ILIKE $1", [JStr ("%" ++ trim s ++ "%")]))
    by reflexivity.
  rewrite Hname, Htitle, (ConversionTheory.trim_allWhite s Hs). split; reflexivity.
Qed.

(** A value of three spaces. *)
Lemma sqlForFilter_blank_text_witness :
  sqlForFilter (ofStrings [("nameLike", "   ")]) "companies"
  = Ok ("WHERE name ILIKE $1", [JStr "%%"]).
Proof. exact (proj1 (sqlForFilter_blank_text "   " eq_refl)). Defined.

Lemma hasDollar_app (a b : string) :
  hasDollar (a ++ b) = (hasDollar a || hasDollar b)%bool.
Proof.
  induction a as [ | c a IH ]; cbn [append hasDollar]; [ reflexivity | ].
  rewrite IH. apply orb_assoc.
Qed.

(** The column the builder writes, whatever the mapping of names holds. *)
Lemma written_column (jsToSql : list (string * string)) (colName : string) :
  exists mapped,
    getMember (ofStrings jsToSql) colName = Ok mapped
    /\ orColName mapped colName = columnOf jsToSql colName.
Proof.
  unfold ofStrings. rewrite SqlTheory.getMember_object. eexists. split; [ reflexivity | ].
  unfold columnOf. rewrite SqlTheory.lookup_ofStrings.
  destruct (lookup jsToSql colName) as [ [ | c column ] | ]; cbn [option_map orColName];
    try reflexivity.
  destruct (lookup objectPrototype colName); reflexivity.
Qed.

Lemma mapWithIndex_columns (jsToSql : list (string * string)) :
  forall (keys : list string) (idx : nat),
    mapWithIndex
      (fun colName idx =>
         mapped <- getMember (ofStrings jsToSql) colName ;;
         Ok (dquote ++ orColName mapped colName
             ++ dquote ++ "=$" ++ string_of_nat (idx + 1)))
      idx keys
    = Ok (map (fun fn => assignment (columnOf jsToSql (fst fn)) (snd fn))
              (combine keys (seq (idx + 1) (List.length keys)))).
Proof.
  induction keys as [ | k keys IH ]; intros idx; [ reflexivity | ].
  cbn [mapWithIndex].
  destruct (written_column jsToSql k) as (mapped & Hget & Hcolumn).
  rewrite Hget. cbn [bind]. rewrite Hcolumn, (IH (S idx)).
  cbn [bind List.length seq combine map fst snd].
  unfold assignment at 2.
  replace (S idx + 1) with (S (idx + 1)) by lia. reflexivity.
Qed.

(** No member of [Object.prototype] has a dollar sign in its text. *)
Lemma objectPrototype_no_dollar (k text : string) :
  lookup objectPrototype k = Some text -> hasDollar text = false.
Proof.
  unfold objectPrototype. cbn [lookup].
  repeat (destruct (String.eqb _ k); [ intros [= <-]; reflexivity | ]).
  discriminate.
Qed.

Lemma columnOf_no_dollar (jsToSql : list (string * string)) (k : string) :
  forallb (fun kv => negb (hasDollar (snd kv))) jsToSql = true ->
  hasDollar k = false -> hasDollar (columnOf jsToSql k) = false.
Proof.
  intros Hcols Hk. unfold columnOf.
  destruct (lookup jsToSql k) as [ column | ] eqn:Hl.
  - destruct (isEmpty column); [ exact Hk | ].
    induction jsToSql as [ | [k' c'] jsToSql IH ]; [ discriminate | ].
    cbn [forallb snd lookup] in Hcols, Hl. apply andb_true_iff in Hcols as [Hc Hrest].
    destruct (String.eqb k' k).
    + injection Hl as <-. now apply negb_true_iff in Hc.
    + exact (IH Hrest Hl).
  - destruct (lookup objectPrototype k) as [ text | ] eqn:Hproto; [ | exact Hk ].
    exact (objectPrototype_no_dollar k text Hproto).
Qed.

(** The placeholders of a list of assignments, joined by commas. *)
Lemma placeholders_assignments :
  forall (l : list (string * nat)) (rest : string),
    forallb (fun cn => negb (hasDollar (fst cn))) l = true ->
    startsWithDigit rest = false ->
    placeholders (join ", " (map (fun cn => assignment (fst cn) (snd cn)) l) ++ rest)
    = (map snd l ++ placeholders rest)%list.
Proof.
  induction l as [ | [c n] l IH ]; intros rest Hcols Hrest; [ reflexivity | ].
  cbn [forallb fst] in Hcols. apply andb_true_iff in Hcols as [Hc Hl].
  apply negb_true_iff in Hc.
  assert (Hone : forall tail, startsWithDigit tail = false ->
            placeholders (assignment c n ++ tail) = n :: placeholders tail).
  { intros tail Htail. unfold assignment.
    rewrite <- (SqlTheory.placeholders_parameter (dquote ++ c ++ dquote ++ "=") tail n).
    - rewrite !SqlTheory.append_assoc. reflexivity.
    - rewrite !hasDollar_app, Hc. reflexivity.
    - exact Htail. }
  cbn [map fst snd app]. destruct l as [ | p l ].
  - cbn [map join]. apply Hone. exact Hrest.
  - change (join ", " (assignment c n :: map (fun cn => assignment (fst cn) (snd cn)) (p :: l)))
      with (assignment c n ++ ", "
            ++ join ", " (map (fun cn => assignment (fst cn) (snd cn)) (p :: l))).
    rewrite !SqlTheory.append_assoc, Hone by reflexivity.
    rewrite (SqlTheory.placeholders_no_dollar ", " _ eq_refl).
    rewrite (IH rest Hl Hrest). reflexivity.
Qed.

Lemma map_snd_combine_seq (keys : list string) :
  forall start,
    map snd (combine (map (fun k : string => k) keys) (seq start (List.length keys)))
    = seq start (List.length keys).
Proof.
  induction keys as [ | k keys IH ]; intros start; [ reflexivity | ].
  cbn [map List.length seq combine snd]. now rewrite IH.
Qed.

(** The SET clause of an update, followed by any text that does not begin
    with a digit. *)
Lemma sqlForPartialUpdate_text (dataToUpdate : obj) (jsToSql : list (string * string)) :
  dataToUpdate <> [] ->
  forallb (fun k => negb (hasDollar k)) (map fst dataToUpdate) = true ->
  forallb (fun kv => negb (hasDollar (snd kv))) jsToSql = true ->
  exists setCols,
    sqlForPartialUpdate (JObj dataToUpdate) (ofStrings jsToSql)
    = Ok (setCols, map snd dataToUpdate)
    /\ forall rest, startsWithDigit rest = false ->
         placeholders (setCols ++ rest)
         = (seq 1 (List.length dataToUpdate) ++ placeholders rest)%list.
Proof.
  intros Hne Hkeys Hcols.
  unfold sqlForPartialUpdate, Object_keys, Object_values.
  cbn [isNullish ownProperties bind].
  destruct (List.length (map fst dataToUpdate) =? 0)%nat eqn:Hlen.
  { destruct dataToUpdate; [ congruence | discriminate ]. }
  rewrite (mapWithIndex_columns jsToSql (map fst dataToUpdate) 0). cbn [bind Nat.add].
  eexists. split; [ reflexivity | ]. intros rest Hrest.
  set (numbered := combine (map fst dataToUpdate)
                           (seq 1 (List.length (map fst dataToUpdate)))).
  assert (Hmap : map (fun fn => assignment (columnOf jsToSql (fst fn)) (snd fn)) numbered
                 = map (fun cn => assignment (fst cn) (snd cn))
                       (map (fun fn : string * nat => (columnOf jsToSql (fst fn), snd fn))
                            numbered))
    by (rewrite map_map; reflexivity).
  rewrite Hmap, placeholders_assignments; [ | | exact Hrest ].
  - rewrite map_map. cbn [snd]. unfold numbered.
    rewrite <- (map_id (map fst dataToUpdate)) at 1.
    rewrite map_snd_combine_seq, length_map. reflexivity.
  - rewrite forallb_forall. intros [c n] Hin. cbn [fst].
    apply in_map_iff in Hin as ([k m] & [= <- <-] & Hin). cbn [fst].
    apply negb_true_iff, columnOf_no_dollar; [ exact Hcols | ].
    apply in_combine_l in Hin. rewrite forallb_forall in Hkeys.
    now apply negb_true_iff, Hkeys.
Qed.

(** X7: for an update whose field names and column names hold no dollar
    sign, the SET clause the builder returns has the placeholders [$1] to
    [$n] from left to right, [n] being the number of values returned, which
    are the values of the update in the order of its keys. *)
Theorem sqlForPartialUpdate_placeholders
    (dataToUpdate : obj) (jsToSql : list (string * string)) :
  dataToUpdate <> [] ->
  forallb (fun k => negb (hasDollar k)) (map fst dataToUpdate) = true ->
  forallb (fun kv => negb (hasDollar (snd kv))) jsToSql = true ->
  exists setCols values,
    sqlForPartialUpdate (JObj dataToUpdate) (ofStrings jsToSql) = Ok (setCols, values)
    /\ values = map snd dataToUpdate
    /\ placeholders setCols = seq 1 (List.length values).
Proof.
  intros Hne Hkeys Hcols.
  destruct (sqlForPartialUpdate_text dataToUpdate jsToSql Hne Hkeys Hcols)
    as (setCols & Hset & Htext).
  exists setCols, (map snd dataToUpdate). repeat split; [ exact Hset | ].
  rewrite <- (SqlTheory.append_nil_r setCols), (Htext EmptyString eq_refl).
  cbn [placeholders]. rewrite app_nil_r, length_map. reflexivity.
Qed.

(** A user's first name and e-mail address. *)
Lemma sqlForPartialUpdate_placeholders_witness :
  exists setCols values,
    sqlForPartialUpdate
      (JObj [("firstName", JStr "Aliya"); ("email", JStr "a@b.c")])
      (ofStrings [("firstName", "first_name")]) = Ok (setCols, values)
    /\ values = [JStr "Aliya"; JStr "a@b.c"]
    /\ placeholders setCols = [1; 2].
Proof.
  destruct (sqlForPartialUpdate_placeholders
              [("firstName", JStr "Aliya"); ("email", JStr "a@b.c")]
              [("firstName", "first_name")]
              ltac:(discriminate) eq_refl eq_refl)
    as (setCols & values & Hset & Hvalues & Hplaces).
  exists setCols, values. subst values. repeat split; assumption.
Defined.

(** X8: the update builder throws a [TypeError], not a validation error,
    when the update itself is [null] or [undefined], and when the update is
    not empty and the field-to-column argument is [null] or [undefined]. *)
Theorem sqlForPartialUpdate_missing_argument
    (jsToSql : jsval) (p : string * jsval) (rest : obj) :
  (exists m, sqlForPartialUpdate JUndefined jsToSql = Err (TypeError m))
  /\ (exists m, sqlForPartialUpdate JNull jsToSql = Err (TypeError m))
  /\ sqlForPartialUpdate (JObj (p :: rest)) JUndefined
     = Err (TypeError ("Cannot read properties of undefined (reading '" ++ fst p ++ "')"))
  /\ sqlForPartialUpdate (JObj (p :: rest)) JNull
     = Err (TypeError ("Cannot read properties of null (reading '" ++ fst p ++ "')")).
Proof. repeat split; eexists; reflexivity. Qed.

Lemma sqlForPartialUpdate_columns_text
    (p : string * jsval) (rest : obj) (jsToSql : list (string * string)) :
  sqlForPartialUpdate (JObj (p :: rest)) (ofStrings jsToSql)
  = Ok (join ", "
          (map (fun fn => assignment (columnOf jsToSql (fst fn)) (snd fn))
               (combine (map fst (p :: rest)) (seq 1 (List.length (p :: rest))))),
        map snd (p :: rest)).
Proof.
  unfold sqlForPartialUpdate, Object_keys, Object_values.
  cbn [isNullish ownProperties bind map List.length Nat.eqb].
  rewrite (mapWithIndex_columns jsToSql (fst p :: map fst rest) 0).
  cbn [bind Nat.add List.length]. rewrite length_map. reflexivity.
Qed.

End BuilderTheory.

(** ** More on the Job repository *)

Module RepositoryTheory.
Import JS Sql Job Spec Notions JobSql.

(** The clause the filter builder returns, followed by any text that does
    not begin with a digit. *)
Lemma sqlForFilter_text (dataForFilter : jsval) (table whereClause : string)
    (values : list jsval) :
  sqlForFilter dataForFilter table = Ok (whereClause, values) ->
  forall rest, startsWithDigit rest = false ->
    placeholders (whereClause ++ rest)
    = (seq 1 (List.length values) ++ placeholders rest)%list.
Proof.
  unfold sqlForFilter, Object_keys.
  destruct (ToBoolean dataForFilter) eqn:Htruthy;
    [ | intros [= <- <-] rest _; reflexivity ].
  assert (Hnull : isNullish dataForFilter = false)
    by (destruct dataForFilter; try reflexivity; discriminate).
  rewrite Hnull. cbn [bind].
  destruct (map fst (ownProperties dataForFilter)) as [ | k keys ];
    [ intros [= <- <-] rest _; reflexivity | ].
  cbn [List.length Nat.ltb Nat.leb].
  destruct (hasOwnProperty dataForFilter "minEmployees"
            && hasOwnProperty dataForFilter "maxEmployees"
            && num_le (ToNumber (prop dataForFilter "maxEmployees"))
                      (ToNumber (prop dataForFilter "minEmployees")))%bool;
    [ discriminate | ].
  destruct (filterColumns dataForFilter table (k :: keys) [])
    as [ [cols valuesOut] | ] eqn:Hcols; [ | discriminate ].
  cbn [bind]. intros [= <- <-] rest Hrest.
  destruct (SqlTheory.filterColumns_placeholders _ _ _ _ _ _ Hcols) as (_ & Hlen & Hmany).
  cbn [List.length Nat.add] in Hlen, Hmany.
  change (placeholders ("WHERE " ++ join " AND " cols ++ rest)
          = (seq 1 (List.length valuesOut) ++ placeholders rest)%list).
  rewrite (SqlTheory.placeholders_no_dollar "WHERE " _ eq_refl).
  rewrite (Hmany rest Hrest), Hlen. reflexivity.
Qed.

(** The placeholders of a text without variable part, by evaluation. *)
Ltac compute_placeholders :=
  match goal with
  | |- context [placeholders ?text] =>
      let found := eval vm_compute in (placeholders text) in
      change (placeholders text) with found
  end.

Lemma wellBound_intro (st : statement) :
  placeholders (sqlText st) = seq 1 (List.length (boundValues st)) ->
  wellBound st = true.
Proof.
  intros Heq. unfold wellBound.
  destruct (list_eq_dec Nat.eq_dec (placeholders (sqlText st))
              (seq 1 (List.length (boundValues st)))); [ reflexivity | contradiction ].
Qed.

Lemma checked_wellBound (db_query : statement -> result (list jsval)) (st : statement) :
  wellBound st = true -> checked db_query st = db_query st.
Proof. unfold checked. now intros ->. Qed.

Lemma select_wellBound (joinType whereClause : string) (values : list jsval)
    (dataForFilter : jsval) :
  hasDollar joinType = false ->
  sqlForFilter dataForFilter "jobs" = Ok (whereClause, values) ->
  wellBound (SelectCompanyJobs joinType whereClause values) = true.
Proof.
  intros Hjoin Hfilter. apply wellBound_intro. cbn [sqlText boundValues].
  unfold selectCompanyJobsText.
  rewrite !SqlTheory.placeholders_no_dollar by first [ reflexivity | exact Hjoin ].
  rewrite (sqlForFilter_text _ _ _ _ Hfilter) by reflexivity.
  compute_placeholders. apply app_nil_r.
Qed.

Lemma update_wellBound (dataToUpdate : obj) (jsToSql : list (string * string))
    (setCols : string) (values : list jsval) (id : jsval) :
  forallb (fun k => negb (hasDollar k)) (map fst dataToUpdate) = true ->
  forallb (fun kv => negb (hasDollar (snd kv))) jsToSql = true ->
  sqlForPartialUpdate (JObj dataToUpdate) (ofStrings jsToSql) = Ok (setCols, values) ->
  wellBound (UpdateJob setCols ("$" ++ string_of_nat (List.length values + 1))
                       (values ++ [id])%list) = true.
Proof.
  intros Hkeys Hcols Hset.
  assert (Hne : dataToUpdate <> []) by (intros ->; discriminate).
  destruct (BuilderTheory.sqlForPartialUpdate_text dataToUpdate jsToSql Hne Hkeys Hcols)
    as (setCols' & Hset' & Htext).
  rewrite Hset in Hset'. injection Hset' as <- ->.
  apply wellBound_intro. cbn [sqlText boundValues]. unfold updateText.
  match goal with
  | |- context [placeholders (?pre ++ setCols ++ ?rest)] =>
      rewrite (SqlTheory.placeholders_no_dollar pre (setCols ++ rest) eq_refl)
  end.
  rewrite Htext by reflexivity.
  match goal with
  | |- context [placeholders (?pre ++ ("$" ++ string_of_nat ?n) ++ ?tail)] =>
      replace (pre ++ ("$" ++ string_of_nat n) ++ tail)
        with ((pre ++ "$" ++ string_of_nat n) ++ tail)
        by (now rewrite !SqlTheory.append_assoc);
      rewrite (SqlTheory.placeholders_parameter pre tail n eq_refl eq_refl)
  end.
  compute_placeholders. rewrite length_app, !length_map. cbn [List.length].
  rewrite seq_app. cbn [seq]. do 2 f_equal. lia.
Qed.

Lemma prop_setProperty_other (o : obj) (k k' : string) (x : jsval) :
  k' <> k -> prop (JObj (setProperty o k x)) k' = prop (JObj o) k'.
Proof.
  intros Hk. unfold prop. cbn [ownProperties].
  induction o as [ | [k0 y] o IH ]; cbn [setProperty lookup].
  - destruct (String.eqb_spec k k'); [ congruence | reflexivity ].
  - destruct (String.eqb_spec k0 k) as [ -> | _ ]; cbn [lookup].
    + destruct (String.eqb_spec k k'); [ congruence | reflexivity ].
    + destruct (String.eqb k0 k'); [ reflexivity | exact IH ].
Qed.

Lemma prop_deleteProperty_other (o : obj) (k k' : string) :
  k' <> k -> prop (JObj (deleteProperty o k)) k' = prop (JObj o) k'.
Proof.
  intros Hk. unfold prop. cbn [ownProperties].
  induction o as [ | [k0 y] o IH ]; cbn [deleteProperty lookup]; [ reflexivity | ].
  destruct (String.eqb_spec k0 k) as [ -> | _ ]; cbn [lookup].
  - destruct (String.eqb_spec k k'); [ congruence | reflexivity ].
  - destruct (String.eqb k0 k'); [ reflexivity | exact IH ].
Qed.

Lemma forEach_pointwise (f : jsval -> result jsval) :
  forall l l', forEach f l = Ok l' ->
    List.length l' = List.length l
    /\ forall i, i < List.length l ->
         f (nth i l JUndefined) = Ok (nth i l' JUndefined).
Proof.
  induction l as [ | x l IH ]; intros l'; cbn [forEach].
  - intros [= <-]. split; [ reflexivity | ]. cbn. intros i Hi. lia.
  - destruct (f x) as [ y | ] eqn:Hx; [ | discriminate ]. cbn [bind].
    destruct (forEach f l) as [ ys | ] eqn:Hl; [ | discriminate ]. cbn [bind].
    intros [= <-]. destruct (IH ys eq_refl) as [Hlen Hnth].
    split; [ cbn; now rewrite Hlen | ].
    intros [ | i ] Hi; cbn [nth]; [ exact Hx | ]. apply Hnth. cbn in Hi. lia.
Qed.

Lemma trimCompany_keeps (handle company company' : jsval) (k : string) :
  trimCompany handle company = Ok company' ->
  k <> "description" -> k <> "logoUrl" -> k <> "jobs" ->
  prop company' k = prop company k.
Proof.
  unfold trimCompany, dropCompanyHandles.
  destruct company as [ | | | | | | c ];
    try discriminate; try (destruct (negb (ToBoolean handle)); discriminate).
  intros Hok Hd Hl Hj.
  set (c1 := if negb (ToBoolean handle)
             then deleteProperty (deleteProperty c "description") "logoUrl" else c) in *.
  assert (Hc1 : prop (JObj c1) k = prop (JObj c) k).
  { unfold c1. destruct (negb (ToBoolean handle)); [ | reflexivity ].
    now rewrite !prop_deleteProperty_other. }
  destruct (prop (JObj c1) "jobs"); try discriminate.
  destruct (forEach (fun job => deleteProp job "company_handle") elements);
    [ | discriminate ].
  cbn [bind] in Hok. injection Hok as <-.
  now rewrite prop_setProperty_other.
Qed.

(** *** Properties read off the source *)

(** X9: every statement the Job repository sends to the store has the
    placeholders [$1] to [$N] for the [N] values it binds, provided the
    join keyword given to [findAll] and the keys of the data given to
    [update] hold no dollar sign: a store that refuses any other statement
    answers each operation as the store itself does. *)
Theorem statements_well_bound
    (db_query : statement -> result (list jsval)) (Company_get : jsval -> result jsval) :
  (forall data, create (checked db_query) data = create db_query data)
  /\ (forall id, Job.get (checked db_query) id = Job.get db_query id)
  /\ (forall id, remove (checked db_query) id = remove db_query id)
  /\ (forall handle joinType filterValues,
        hasDollar joinType = false ->
        findAll (checked db_query) Company_get handle joinType filterValues
        = findAll db_query Company_get handle joinType filterValues)
  /\ (forall id data,
        forallb (fun k => negb (hasDollar k)) (map fst data) = true ->
        update (checked db_query) id (JObj data) = update db_query id (JObj data)).
Proof.
  split; [ | split; [ | split; [ | split ] ] ].
  - intros data. unfold create.
    destruct (destructure data "companyHandle") as [ companyHandle | ]; [ | reflexivity ].
    cbn [bind]. rewrite checked_wellBound; [ reflexivity | ].
    apply wellBound_intro. vm_compute. reflexivity.
  - intros id. unfold Job.get.
    rewrite checked_wellBound; [ reflexivity | ].
    apply wellBound_intro. vm_compute. reflexivity.
  - intros id. unfold remove.
    rewrite checked_wellBound; [ reflexivity | ].
    apply wellBound_intro. vm_compute. reflexivity.
  - intros handle joinType filterValues Hjoin. unfold findAll. cbv zeta.
    match goal with
    | |- context [sqlForFilter ?d ?t] =>
        destruct (sqlForFilter d t) as [ [whereClause values] | ] eqn:Hfilter
    end; [ | reflexivity ].
    cbn [bind].
    rewrite (checked_wellBound _ _ (select_wellBound _ _ _ _ Hjoin Hfilter)).
    reflexivity.
  - intros id data Hkeys. unfold update.
    change (JObj [("companyHandle", JStr "company_handle")])
      with (ofStrings [("companyHandle", "company_handle")]).
    destruct (sqlForPartialUpdate (JObj data)
                (ofStrings [("companyHandle", "company_handle")]))
      as [ [setCols values] | ] eqn:Hset; [ | reflexivity ].
    cbn [bind].
    rewrite (checked_wellBound _ _
               (update_wellBound data [("companyHandle", "company_handle")]
                  setCols values id Hkeys eq_refl Hset)).
    reflexivity.
Qed.

(** An update of the title and the salary, on a store that holds one
    job. *)
Lemma statements_well_bound_witness :
  update (checked oneJobStore) (JNum (num_of_Z 1))
    (JObj [("title", JStr "new"); ("salary", JNum (num_of_Z 75000))])
  = update oneJobStore (JNum (num_of_Z 1))
      (JObj [("title", JStr "new"); ("salary", JNum (num_of_Z 75000))]).
Proof.
  exact (proj2 (proj2 (proj2 (proj2
           (statements_well_bound oneJobStore (fun _ => Err (NotFoundError EmptyString))))))
           (JNum (num_of_Z 1))
           [("title", JStr "new"); ("salary", JNum (num_of_Z 75000))] eq_refl).
Defined.

(** X10: the repository does not catch what the store rejects with: when
    the store fails with an error, [create], [get], [remove], and [update]
    and [findAll] once their clause is built, fail with that same error. *)
Theorem store_errors_propagate (e : error) (Company_get : jsval -> result jsval) :
  (forall data, isNullish data = false -> create (failing e) data = Err e)
  /\ (forall id, Job.get (failing e) id = Err e)
  /\ (forall id, remove (failing e) id = Err e)
  /\ (forall id data setCols values,
        sqlForPartialUpdate data (JObj [("companyHandle", JStr "company_handle")])
        = Ok (setCols, values) ->
        update (failing e) id data = Err e)
  /\ (forall handle joinType filterValues whereClause values,
        ToBoolean handle = false ->
        sqlForFilter (JObj filterValues) "jobs" = Ok (whereClause, values) ->
        findAll (failing e) Company_get handle joinType filterValues = Err e).
Proof.
  split; [ | split; [ | split; [ | split ] ] ].
  - intros data Hdata. unfold create, destructure. rewrite Hdata. reflexivity.
  - reflexivity.
  - reflexivity.
  - intros id data setCols values Hset. unfold update. rewrite Hset. reflexivity.
  - intros handle joinType filterValues whereClause values Hhandle Hfilter.
    unfold findAll. rewrite Hhandle, Hfilter. reflexivity.
Qed.

(** A foreign-key violation on [create]. *)
Lemma store_errors_propagate_witness :
  create (failing (StoreError "23503" "violates foreign key constraint"))
    (JObj [("companyHandle", JStr "f1"); ("title", JStr "new")])
  = Err (StoreError "23503" "violates foreign key constraint").
Proof.
  exact (proj1 (store_errors_propagate
                  (StoreError "23503" "violates foreign key constraint")
                  (fun _ => Err (NotFoundError EmptyString)))
               (JObj [("companyHandle", JStr "f1"); ("title", JStr "new")]) eq_refl).
Defined.



(** X12: [findAll] never calls [Company.get], and with a handle it never
    reaches the store either: its answer does not depend on what
    [Company.get] returns, nor, when the handle is truthy, on the store. *)
Theorem findAll_lookups_unused
    (db_query db_query' : statement -> result (list jsval))
    (Company_get Company_get' : jsval -> result jsval)
    (handle : jsval) (joinType : string) (filterValues : obj) :
  findAll db_query Company_get handle joinType filterValues
  = findAll db_query Company_get' handle joinType filterValues
  /\ (ToBoolean handle = true ->
      findAll db_query Company_get handle joinType filterValues
      = findAll db_query' Company_get' handle joinType filterValues).
Proof.
  destruct (ToBoolean handle) eqn:Hhandle.
  - destruct (JobTheory.findAll_with_handle db_query Company_get handle joinType
                filterValues Hhandle) as (e & He & ->).
    destruct (JobTheory.findAll_with_handle db_query Company_get' handle joinType
                filterValues Hhandle) as (e1 & He1 & ->).
    destruct (JobTheory.findAll_with_handle db_query' Company_get' handle joinType
                filterValues Hhandle) as (e2 & He2 & ->).
    split; [ | intros _ ]; congruence.
  - split; [ | discriminate ]. unfold findAll. rewrite Hhandle. reflexivity.
Qed.

(** The jobs of company [c1], asked of a store that answers and of one
    that fails. *)
Lemma findAll_lookups_unused_witness :
  findAll oneJobStore (fun _ => Err (NotFoundError EmptyString)) (JStr "c1") "LEFT " []
  = findAll (failing (StoreError EmptyString EmptyString)) (fun _ => Ok JNull)
            (JStr "c1") "LEFT " [].
Proof.
  exact (proj2 (findAll_lookups_unused
                  oneJobStore (failing (StoreError EmptyString EmptyString))
                  (fun _ => Err (NotFoundError EmptyString)) (fun _ => Ok JNull)
                  (JStr "c1") "LEFT " [])
               eq_refl).
Defined.

(** X13: in the listing of all jobs, the companies returned are the rows
    of the store, as many and in the same order, and every column of a
    company other than [description], [logoUrl] and [jobs] is returned as
    the store gave it. *)
Theorem findAll_keeps_companies
    (db_query : statement -> result (list jsval)) (Company_get : jsval -> result jsval)
    (handle : jsval) (joinType whereClause : string) (filterValues : obj)
    (values rows out : list jsval) :
  ToBoolean handle = false ->
  sqlForFilter (JObj filterValues) "jobs" = Ok (whereClause, values) ->
  db_query (SelectCompanyJobs joinType whereClause values) = Ok rows ->
  findAll db_query Company_get handle joinType filterValues = Ok out ->
  List.length out = List.length rows
  /\ forall i k,
       k <> "description" -> k <> "logoUrl" -> k <> "jobs" ->
       prop (nth i out JUndefined) k = prop (nth i rows JUndefined) k.
Proof.
  intros Hhandle Hfilter Hrows. unfold findAll.
  rewrite Hhandle, Hfilter. cbn [bind]. rewrite Hrows. cbn [bind].
  destruct rows as [ | row rows ];
    [ cbn [List.length Nat.eqb]; destruct (0 <? _)%nat; discriminate | ].
  cbn [List.length Nat.eqb]. change (first (row :: rows)) with row.
  destruct (isNullish row); [ discriminate | ].
  destruct (prop row "jobs") as [ | | | | | jobs | ];
    try discriminate;
    try (match goal with
         | |- (if ?b then Err _ else Err _) = _ -> _ => destruct b; discriminate
         end).
  destruct (ToBoolean (first jobs)).
  - intros Hout. destruct (forEach_pointwise _ _ _ Hout) as [Hlen Hnth].
    split; [ exact Hlen | ]. intros i k Hd Hl Hj.
    destruct (Nat.lt_ge_cases i (List.length (row :: rows))) as [ Hi | Hi ].
    + apply (trimCompany_keeps handle); [ apply Hnth; exact Hi | assumption .. ].
    + rewrite !nth_overflow by lia. reflexivity.
  - destruct row as [ | | | | | | c ]; intros [= <-];
      (split; [ reflexivity | ]); intros i k Hd Hl Hj; try reflexivity.
    destruct i as [ | i ]; [ | reflexivity ]. cbn [nth].
    now rewrite prop_setProperty_other.
Qed.

(** One company with one job, as the store returns them. *)
Lemma findAll_keeps_companies_witness :
  exists out,
    findAll
      (fun _ => Ok [JObj [("handle", JStr "c1"); ("description", JStr "Desc1");
                          ("jobs", JArr [storedJob])]])
      (fun _ => Err (NotFoundError EmptyString)) (JStr EmptyString) EmptyString [] = Ok out
    /\ List.length out = 1
    /\ prop (nth 0 out JUndefined) "handle" = JStr "c1".
Proof.
  eexists. split; [ reflexivity | ].
  destruct (findAll_keeps_companies
              (fun _ => Ok [JObj [("handle", JStr "c1"); ("description", JStr "Desc1");
                                  ("jobs", JArr [storedJob])]])
              (fun _ => Err (NotFoundError EmptyString)) (JStr EmptyString) EmptyString
              EmptyString [] [] _ _ eq_refl eq_refl eq_refl eq_refl) as [Hlen Hprop].
  split; [ exact Hlen | ].
  exact (Hprop 0 "handle" ltac:(discriminate) ltac:(discriminate) ltac:(discriminate)).
Defined.

Lemma forEach_Forall (f : jsval -> result jsval) (Q : jsval -> Prop) :
  forall l l', forEach f l = Ok l' ->
    (forall x y, In x l -> f x = Ok y -> Q y) -> Forall Q l'.
Proof.
  induction l as [ | x l IH ]; intros l'; cbn [forEach].
  - intros [= <-] _. constructor.
  - destruct (f x) as [ y | ] eqn:Hx; [ | discriminate ]. cbn [bind].
    destruct (forEach f l) as [ ys | ] eqn:Hl; [ | discriminate ]. cbn [bind].
    intros [= <-] HQ. constructor.
    + apply (HQ x y); [ left; reflexivity | exact Hx ].
    + apply IH; [ reflexivity | ]. intros x' y' Hin. apply HQ. right. exact Hin.
Qed.

Lemma lookup_not_in (o : obj) (k : string) :
  ~ In k (map fst o) -> lookup o k = None.
Proof.
  induction o as [ | [k0 y] o IH ]; cbn [map fst lookup In]; [ reflexivity | ].
  intros Hnotin. destruct (String.eqb_spec k0 k); [ tauto | apply IH; tauto ].
Qed.

Lemma deleteProperty_keys (o : obj) (k k' : string) :
  In k' (map fst (deleteProperty o k)) -> In k' (map fst o).
Proof.
  induction o as [ | [k0 y] o IH ]; cbn [deleteProperty map fst In]; [ tauto | ].
  destruct (String.eqb k0 k); cbn [map fst In]; tauto.
Qed.

Lemma deleteProperty_NoDup (o : obj) (k : string) :
  NoDup (map fst o) -> NoDup (map fst (deleteProperty o k)).
Proof.
  induction o as [ | [k0 y] o IH ]; cbn [deleteProperty map fst]; [ tauto | ].
  intros Hnd. inversion Hnd as [ | ? ? Hnotin Hnd' ]; subst.
  destruct (String.eqb k0 k); [ exact Hnd' | ].
  cbn [map fst]. constructor; [ | exact (IH Hnd') ].
  intros Hin. apply Hnotin. exact (deleteProperty_keys _ _ _ Hin).
Qed.

Lemma deleteProperty_gone (o : obj) (k : string) :
  NoDup (map fst o) -> hasOwnProperty (JObj (deleteProperty o k)) k = false.
Proof.
  intros Hnd. unfold hasOwnProperty. cbn [ownProperties].
  induction o as [ | [k0 y] o IH ]; cbn [deleteProperty map fst]; [ reflexivity | ].
  inversion Hnd as [ | ? ? Hnotin Hnd' ]; subst.
  destruct (String.eqb_spec k0 k) as [ -> | Hneq ].
  - now rewrite (lookup_not_in o k Hnotin).
  - cbn [lookup]. destruct (String.eqb_spec k0 k); [ congruence | exact (IH Hnd') ].
Qed.

Lemma hasOwnProperty_as_prop (o o' : obj) (k : string) :
  lookup o' k = lookup o k ->
  hasOwnProperty (JObj o') k = hasOwnProperty (JObj o) k.
Proof. unfold hasOwnProperty. cbn [ownProperties]. now intros ->. Qed.

Lemma lookup_deleteProperty_other (o : obj) (k k' : string) :
  k' <> k -> lookup (deleteProperty o k) k' = lookup o k'.
Proof.
  intros Hk.
  induction o as [ | [k0 y] o IH ]; cbn [deleteProperty lookup]; [ reflexivity | ].
  destruct (String.eqb_spec k0 k) as [ -> | _ ]; cbn [lookup].
  - destruct (String.eqb_spec k k'); [ congruence | reflexivity ].
  - destruct (String.eqb k0 k'); [ reflexivity | exact IH ].
Qed.

Lemma lookup_setProperty_other (o : obj) (k k' : string) (x : jsval) :
  k' <> k -> lookup (setProperty o k x) k' = lookup o k'.
Proof.
  intros Hk.
  induction o as [ | [k0 y] o IH ]; cbn [setProperty lookup].
  - destruct (String.eqb_spec k k'); [ congruence | reflexivity ].
  - destruct (String.eqb_spec k0 k) as [ -> | _ ]; cbn [lookup].
    + destruct (String.eqb_spec k k'); [ congruence | reflexivity ].
    + destruct (String.eqb k0 k'); [ reflexivity | exact IH ].
Qed.

Lemma prop_setProperty_same (o : obj) (k : string) (x : jsval) :
  prop (JObj (setProperty o k x)) k = x.
Proof.
  unfold prop. cbn [ownProperties].
  induction o as [ | [k0 y] o IH ]; cbn [setProperty lookup].
  - now rewrite String.eqb_refl.
  - destruct (String.eqb_spec k0 k) as [ -> | Hneq ]; cbn [lookup].
    + now rewrite String.eqb_refl.
    + destruct (String.eqb_spec k0 k); [ congruence | exact IH ].
Qed.

(** What the body of the loop makes of one company row. *)
Lemma trimCompany_listed (handle company company' : jsval) :
  ToBoolean handle = false ->
  companyRow company ->
  trimCompany handle company = Ok company' ->
  listedCompany company'.
Proof.
  intros Hhandle (Hunique & jobs & Hjobs & Hjobsunique).
  destruct company as [ | | | | | | c ]; try contradiction.
  cbn [uniqueKeys] in Hunique.
  unfold trimCompany, dropCompanyHandles. rewrite Hhandle. cbn [negb].
  rewrite !prop_deleteProperty_other by discriminate. rewrite Hjobs.
  destruct (forEach (fun job => deleteProp job "company_handle") jobs)
    as [ jobs' | ] eqn:Hloop; [ | discriminate ].
  cbn [bind]. intros [= <-]. unfold listedCompany. split; [ | split ].
  - rewrite (hasOwnProperty_as_prop
               (deleteProperty (deleteProperty c "description") "logoUrl"))
      by (apply lookup_setProperty_other; discriminate).
    rewrite (hasOwnProperty_as_prop (deleteProperty c "description"))
      by (apply lookup_deleteProperty_other; discriminate).
    apply deleteProperty_gone. exact Hunique.
  - rewrite (hasOwnProperty_as_prop
               (deleteProperty (deleteProperty c "description") "logoUrl"))
      by (apply lookup_setProperty_other; discriminate).
    apply deleteProperty_gone, deleteProperty_NoDup. exact Hunique.
  - exists jobs'. split; [ apply prop_setProperty_same | ].
    apply (forEach_Forall _ _ _ _ Hloop). intros job job' Hin Hdelete.
    rewrite Forall_forall in Hjobsunique. specialize (Hjobsunique job Hin).
    destruct job as [ | | | | | | j ]; try contradiction.
    cbn [deleteProp] in Hdelete. injection Hdelete as <-.
    apply deleteProperty_gone. exact Hjobsunique.
Qed.

(** X21: in the listing of all jobs, when the rows of the store are
    company rows with their jobs and the first one has a job, every company
    returned has lost its description and its logo, and every job returned
    has lost the handle of its company. *)
Theorem findAll_listing_shape
    (db_query : statement -> result (list jsval)) (Company_get : jsval -> result jsval)
    (handle : jsval) (joinType whereClause : string) (filterValues : obj)
    (values rows out firstJobs : list jsval) :
  ToBoolean handle = false ->
  sqlForFilter (JObj filterValues) "jobs" = Ok (whereClause, values) ->
  db_query (SelectCompanyJobs joinType whereClause values) = Ok rows ->
  Forall companyRow rows ->
  prop (first rows) "jobs" = JArr firstJobs ->
  ToBoolean (first firstJobs) = true ->
  findAll db_query Company_get handle joinType filterValues = Ok out ->
  Forall listedCompany out.
Proof.
  intros Hhandle Hfilter Hrows Hcompanies Hfirst Htruthy. unfold findAll.
  rewrite Hhandle, Hfilter. cbn [bind]. rewrite Hrows. cbn [bind].
  destruct rows as [ | row rows ]; [ discriminate | ].
  cbn [List.length Nat.eqb]. rewrite Hfirst, Htruthy.
  assert (Hrow : isNullish (first (row :: rows)) = false)
    by (destruct (first (row :: rows)); try reflexivity; discriminate).
  rewrite Hrow.
  intros Hout. apply (forEach_Forall _ _ _ _ Hout).
  intros company company' Hin Htrim.
  rewrite Forall_forall in Hcompanies.
  exact (trimCompany_listed handle company company' Hhandle (Hcompanies company Hin) Htrim).
Qed.

(** One company with one job. *)
Lemma findAll_listing_shape_witness :
  Forall listedCompany
    [JObj [("handle", JStr "c1");
           ("jobs", JArr [JObj [("id", JNum (num_of_Z 1)); ("title", JStr "new");
                                ("salary", JNum (num_of_Z 75000));
                                ("equity", JStr "0.02")]])]].
Proof.
  refine (findAll_listing_shape
            (fun _ => Ok [JObj [("handle", JStr "c1"); ("description", JStr "Desc1");
                                ("jobs", JArr [storedJob])]])
            (fun _ => Err (NotFoundError EmptyString)) (JStr EmptyString) EmptyString
            EmptyString [] [] _ _ [storedJob] eq_refl eq_refl eq_refl _ eq_refl eq_refl
            eq_refl).
  repeat constructor; cbn; try (intuition discriminate).
  exists [storedJob]. split; [ reflexivity | ].
  repeat constructor; cbn; intuition discriminate.
Defined.

End RepositoryTheory.

(** ** The job routes *)

Module RoutesTheory.
Import JS Sql Job Spec JobRoutes.

(** X14: [POST /jobs] turns the store's foreign-key violation (code
    23503) into a [NotFoundError] that names the company handle of the
    body, passes any other rejection of the store on as it is, and answers
    201 with the job when the store accepts; a body the schema refuses is
    answered with the [BadRequestError] whatever the store holds. *)
Theorem postJob_outcomes
    (db_query : statement -> result (list jsval))
    (schemaError : schema -> jsval -> option string) (reqBody : jsval) :
  (forall message,
      schemaError jobNewSchema reqBody = Some message ->
      postJob db_query schemaError reqBody = Err (BadRequestError message))
  /\ (forall e,
        schemaError jobNewSchema reqBody = None ->
        isNullish reqBody = false ->
        db_query (InsertJob [prop reqBody "companyHandle"; prop reqBody "title";
                             prop reqBody "salary"; prop reqBody "equity"]) = Err e ->
        postJob db_query schemaError reqBody
        = Err (if hasCode e "23503"
               then NotFoundError
                      ("Job NOT created: companyHandle '"
                       ++ ToString (prop reqBody "companyHandle") ++ "' does not exist")
               else e))
  /\ (forall job,
        schemaError jobNewSchema reqBody = None ->
        create db_query reqBody = Ok job ->
        postJob db_query schemaError reqBody
        = Ok {| status := 201; body := JObj [("job", job)] |}).
Proof.
  split; [ | split ].
  - intros message Hschema. unfold postJob, validated. rewrite Hschema. reflexivity.
  - intros e Hschema Hbody Hstore. unfold postJob, validated, create, destructure.
    rewrite Hschema, Hbody. cbn [bind]. rewrite Hstore. cbn [bind].
    destruct (hasCode e "23503"); reflexivity.
  - intros job Hschema Hcreate. unfold postJob, validated.
    rewrite Hschema. cbn [bind]. rewrite Hcreate. reflexivity.
Qed.

(** A job for a company that does not exist. *)
Lemma postJob_outcomes_witness :
  postJob (JobSql.failing (StoreError "23503" "violates foreign key constraint"))
    (fun _ _ => None)
    (JObj [("companyHandle", JStr "f1"); ("title", JStr "new")])
  = Err (NotFoundError "Job NOT created: companyHandle 'f1' does not exist").
Proof.
  exact (proj1 (proj2 (postJob_outcomes
                  (JobSql.failing (StoreError "23503" "violates foreign key constraint"))
                  (fun _ _ => None)
                  (JObj [("companyHandle", JStr "f1"); ("title", JStr "new")])))
               (StoreError "23503" "violates foreign key constraint")
               eq_refl eq_refl eq_refl).
Defined.

(** X15: [GET /jobs] answers a listing without any row with a
    [NotFoundError]: the one about the filter settings when the query has
    a filter, and, when it has none, the one about a missing company, with
    an empty handle in its message. *)
Theorem getJobs_no_rows
    (db_query : statement -> result (list jsval)) (Company_get : jsval -> result jsval)
    (schemaError : schema -> jsval -> option string)
    (reqQuery : obj) (whereClause : string) (values : list jsval) :
  schemaError jobFilterSchema (JObj reqQuery) = None ->
  sqlForFilter (JObj reqQuery) "jobs" = Ok (whereClause, values) ->
  db_query (SelectCompanyJobs EmptyString whereClause values) = Ok [] ->
  getJobs db_query Company_get schemaError reqQuery
  = Err (NotFoundError
           (match reqQuery with
            | [] => "No company: "
            | _ => "No jobs were found due to filter settings"
            end)).
Proof.
  intros Hschema Hfilter Hrows. unfold getJobs, validated, findAll.
  rewrite Hschema. cbn [bind ToBoolean isEmpty negb].
  rewrite Hfilter. cbn [bind]. rewrite Hrows. cbn [bind].
  destruct reqQuery; reflexivity.
Qed.

(** The listing of all jobs when the store holds none. *)
Lemma getJobs_no_rows_witness :
  getJobs (fun _ => Ok []) (fun _ => Err (NotFoundError EmptyString)) (fun _ _ => None) []
  = Err (NotFoundError "No company: ").
Proof.
  exact (getJobs_no_rows (fun _ => Ok []) (fun _ => Err (NotFoundError EmptyString))
           (fun _ _ => None) [] EmptyString [] eq_refl eq_refl eq_refl).
Defined.

End RoutesTheory.

(** ** The User repository *)

Module UserTheory.
Import JS Sql Job Spec Notions User.

Lemma lookup_absent (o : obj) (k : string) :
  ~ In k (map fst o) -> lookup o k = None.
Proof.
  induction o as [ | [k0 y] o IH ]; cbn [map fst lookup In]; [ reflexivity | ].
  intros Hnotin. destruct (String.eqb_spec k0 k); [ tauto | apply IH; tauto ].
Qed.

Lemma lookup_deleteProperty (o : obj) (k : string) :
  NoDup (map fst o) -> lookup (deleteProperty o k) k = None.
Proof.
  induction o as [ | [k0 y] o IH ]; cbn [map fst deleteProperty]; [ reflexivity | ].
  intros Hnd. inversion Hnd as [ | ? ? Hnotin Hnd' ]; subst.
  destruct (String.eqb_spec k0 k) as [ -> | Hneq ].
  - apply lookup_absent. exact Hnotin.
  - cbn [lookup]. destruct (String.eqb_spec k0 k); [ congruence | exact (IH Hnd') ].
Qed.

Lemma hasOwnProperty_deleteProperty (o : obj) (k : string) :
  NoDup (map fst o) -> hasOwnProperty (JObj (deleteProperty o k)) k = false.
Proof.
  intros Hnd. unfold hasOwnProperty. cbn [ownProperties].
  now rewrite lookup_deleteProperty.
Qed.

(** *** Properties read off the source *)

(** X16: [authenticate] throws the same [UnauthorizedError] for a user
    the store does not know and for a known user with a wrong password; it
    returns the user only when the comparison of the password succeeds, and
    then without the [password] column, the other columns unchanged. *)
Theorem authenticate_outcomes
    (db_query : statement -> result (list jsval))
    (bcrypt_compare : jsval -> jsval -> result bool) (username password : jsval) :
  (db_query (SelectUser [username]) = Ok [] ->
   authenticate db_query bcrypt_compare username password
   = Thrown (UnauthorizedError "Invalid username/password"))
  /\ (forall user rest,
        db_query (SelectUser [username]) = Ok (JObj user :: rest) ->
        bcrypt_compare password (prop (JObj user) "password") = Ok false ->
        authenticate db_query bcrypt_compare username password
        = Thrown (UnauthorizedError "Invalid username/password"))
  /\ (forall user rest,
        db_query (SelectUser [username]) = Ok (JObj user :: rest) ->
        bcrypt_compare password (prop (JObj user) "password") = Ok true ->
        NoDup (map fst user) ->
        exists out,
          authenticate db_query bcrypt_compare username password = Returned (JObj out)
          /\ hasOwnProperty (JObj out) "password" = false
          /\ forall k, k <> "password" -> prop (JObj out) k = prop (JObj user) k).
Proof.
  split; [ | split ].
  - intros Hrows. unfold authenticate. rewrite Hrows. reflexivity.
  - intros user rest Hrows Hcompare. unfold authenticate. rewrite Hrows.
    change (first (JObj user :: rest)) with (JObj user). cbn [ToBoolean].
    rewrite Hcompare. reflexivity.
  - intros user rest Hrows Hcompare Hnd. unfold authenticate. rewrite Hrows.
    change (first (JObj user :: rest)) with (JObj user). cbn [ToBoolean].
    rewrite Hcompare. cbn [deleteProp].
    exists (deleteProperty user "password"). split; [ reflexivity | ]. split.
    + apply hasOwnProperty_deleteProperty. exact Hnd.
    + intros k Hk. apply RepositoryTheory.prop_deleteProperty_other. exact Hk.
Qed.

(** A known user with a wrong password. *)
Lemma authenticate_outcomes_witness :
  authenticate
    (fun _ => Ok [JObj [("username", JStr "u1"); ("password", JStr "hash")]])
    (fun _ _ => Ok false) (JStr "u1") (JStr "guess")
  = Thrown (UnauthorizedError "Invalid username/password").
Proof.
  exact (proj1 (proj2 (authenticate_outcomes
                  (fun _ => Ok [JObj [("username", JStr "u1"); ("password", JStr "hash")]])
                  (fun _ _ => Ok false) (JStr "u1") (JStr "guess")))
               [("username", JStr "u1"); ("password", JStr "hash")] [] eq_refl eq_refl).
Defined.



Lemma setProperty_values (o : obj) (k : string) (x : jsval) :
  NoDup (map fst o) -> In k (map fst o) ->
  map snd (setProperty o k x) = valuesWith o k x.
Proof.
  unfold valuesWith.
  induction o as [ | [k0 y] o IH ]; cbn [map fst snd setProperty In]; [ contradiction | ].
  intros Hnd Hin. inversion Hnd as [ | ? ? Hnotin Hnd' ]; subst.
  destruct (String.eqb_spec k0 k) as [ -> | Hneq ]; cbn [map snd].
  - f_equal. apply map_ext_in. intros [k1 z] Hk1. cbn [fst snd].
    destruct (String.eqb_spec k1 k) as [ -> | _ ]; [ | reflexivity ].
    exfalso. apply Hnotin. apply (in_map fst) in Hk1. exact Hk1.
  - f_equal. apply IH; [ exact Hnd' | ]. destruct Hin; [ congruence | assumption ].
Qed.

Lemma truthy_property_present (o : obj) (k : string) :
  ToBoolean (prop (JObj o) k) = true -> In k (map fst o).
Proof.
  unfold prop. cbn [ownProperties].
  induction o as [ | [k0 y] o IH ]; cbn [lookup map fst In]; [ discriminate | ].
  destruct (String.eqb_spec k0 k); [ left; assumption | right; now apply IH ].
Qed.

Lemma setProperty_cons (o : obj) (k : string) (x : jsval) :
  exists p rest, setProperty o k x = p :: rest.
Proof.
  destruct o as [ | [k0 y] o ]; cbn [setProperty]; [ eauto | ].
  destruct (String.eqb k0 k); eauto.
Qed.

(** X19: [User.update] never sends the password it is given: when the
    data holds a password, the store is asked one statement only, the
    UPDATE whose values are those of the data in the order of its keys, the
    password replaced by its hash, followed by the username; what the
    function answers depends on the store through that statement alone. *)
Theorem update_binds_hash
    (bcrypt_hash : jsval -> result jsval) (username : jsval) (data : obj)
    (hashed : jsval) :
  NoDup (map fst data) ->
  ToBoolean (prop (JObj data) "password") = true ->
  bcrypt_hash (prop (JObj data) "password") = Ok hashed ->
  exists setCols,
    sqlForPartialUpdate (JObj (setProperty data "password" hashed)) userColumns
    = Ok (setCols, valuesWith data "password" hashed)
    /\ forall db_query db_query' : statement -> result (list jsval),
         db_query (UpdateUser setCols
                     ("$" ++ string_of_nat (List.length data + 1))
                     (valuesWith data "password" hashed ++ [username])%list)
         = db_query' (UpdateUser setCols
                        ("$" ++ string_of_nat (List.length data + 1))
                        (valuesWith data "password" hashed ++ [username])%list) ->
         update db_query bcrypt_hash username (JObj data)
         = update db_query' bcrypt_hash username (JObj data).
Proof.
  intros Hnd Htruthy Hhash.
  pose proof (truthy_property_present data "password" Htruthy) as Hin.
  destruct (setProperty_cons data "password" hashed) as (p & rest & Hcons).
  assert (Hset : sqlForPartialUpdate (JObj (setProperty data "password" hashed)) userColumns
                 = Ok (join ", "
                         (map (fun fn => assignment
                                           (columnOf [("firstName", "first_name");
                                                      ("lastName", "last_name");
                                                      ("isAdmin", "is_admin")] (fst fn))
                                           (snd fn))
                              (combine (map fst (p :: rest))
                                       (seq 1 (List.length (p :: rest))))),
                       valuesWith data "password" hashed)).
  { rewrite Hcons.
    change userColumns with (ofStrings [("firstName", "first_name");
                                        ("lastName", "last_name");
                                        ("isAdmin", "is_admin")]).
    rewrite BuilderTheory.sqlForPartialUpdate_columns_text.
    rewrite <- Hcons, (setProperty_values data "password" hashed Hnd Hin). reflexivity. }
  eexists. split; [ exact Hset | ].
  intros db_query db_query' Hsame. unfold update, getProp. cbn [isNullish bind].
  rewrite Htruthy, Hhash. cbn [bind assign]. rewrite Hset. cbn [bind].
  unfold valuesWith at 1 3. rewrite !length_map. fold (valuesWith data "password" hashed).
  rewrite Hsame. reflexivity.
Qed.

(** A change of the password and the e-mail address. *)
Lemma update_binds_hash_witness :
  exists setCols,
    sqlForPartialUpdate
      (JObj [("password", JStr "$2b$hash"); ("email", JStr "a@b.c")]) userColumns
    = Ok (setCols, [JStr "$2b$hash"; JStr "a@b.c"]).
Proof.
  destruct (update_binds_hash (fun _ => Ok (JStr "$2b$hash")) (JStr "u1")
              [("password", JStr "secret"); ("email", JStr "a@b.c")] (JStr "$2b$hash")
              ltac:(repeat constructor; cbn; intuition discriminate) eq_refl eq_refl)
    as (setCols & Hset & _).
  exists setCols. exact Hset.
Defined.

Lemma collectJobs_filter :
  forall (rows : list jsval) (jobs : list jsval),
    Forall (fun row => isNullish row = false) rows ->
    collectJobs rows jobs
    = Ok (jobs ++ filter ToBoolean (map (fun row => prop row "job_id") rows))%list.
Proof.
  induction rows as [ | row rows IH ]; intros jobs Hrows; cbn [collectJobs map filter].
  - now rewrite app_nil_r.
  - inversion Hrows as [ | ? ? Hrow Hrest ]; subst.
    unfold getProp. rewrite Hrow. cbn [bind]. rewrite (IH _ Hrest).
    destruct (ToBoolean (prop row "job_id")); [ | reflexivity ].
    now rewrite <- app_assoc.
Qed.

(** X20: [User.get] returns the first row of the user without its
    [job_id] column and, when at least one row has a job id, with a [jobs]
    array of the job ids of the rows, in the order of the rows; a user
    without application gets no [jobs] key. *)
Theorem get_collects_jobs
    (db_query : statement -> result (list jsval)) (username : jsval)
    (user : obj) (rest : list jsval) :
  db_query (SelectUserJobs [username]) = Ok (JObj user :: rest) ->
  Forall (fun row => isNullish row = false) rest ->
  let jobs := filter ToBoolean (map (fun row => prop row "job_id") (JObj user :: rest)) in
  User.get db_query username
  = Ok (JObj (deleteProperty
                (match jobs with
                 | [] => user
                 | _ => setProperty user "jobs" (JArr jobs)
                 end) "job_id")).
Proof.
  intros Hrows Hrest jobs. unfold User.get. rewrite Hrows. cbn [bind].
  change (first (JObj user :: rest)) with (JObj user). cbn [ToBoolean negb].
  rewrite (collectJobs_filter (JObj user :: rest) [])
    by (constructor; [ reflexivity | exact Hrest ]).
  cbn [bind app]. fold jobs. destruct jobs; reflexivity.
Qed.

(** A user with two applications. *)
Lemma get_collects_jobs_witness :
  User.get
    (fun _ => Ok [JObj [("username", JStr "u1"); ("job_id", JNum (num_of_Z 3))];
                  JObj [("username", JStr "u1"); ("job_id", JNum (num_of_Z 7))]])
    (JStr "u1")
  = Ok (JObj [("username", JStr "u1");
              ("jobs", JArr [JNum (num_of_Z 3); JNum (num_of_Z 7)])]).
Proof.
  exact (get_collects_jobs
           (fun _ => Ok [JObj [("username", JStr "u1"); ("job_id", JNum (num_of_Z 3))];
                         JObj [("username", JStr "u1"); ("job_id", JNum (num_of_Z 7))]])
           (JStr "u1") [("username", JStr "u1"); ("job_id", JNum (num_of_Z 3))]
           [JObj [("username", JStr "u1"); ("job_id", JNum (num_of_Z 7))]]
           eq_refl ltac:(repeat constructor)).
Defined.



End UserTheory.
